(** * The turn resolver of the homeostasis card game

    A shallow embedding of [src/features/gameplay/GameEngine.ts] together
    with the domain records it works on ([biomarker.model], [card.model],
    [game.model]) and the handlers of the application component that call
    it.

    Modelling choices.
    - JavaScript objects that the engine shares between sessions live in a
      store ([gmap loc object]): a [GameSession] object holds a reference to
      its [HomeostaticState] object, so that the shallow copy
      [{ ...session }] aliases the nested state exactly as it does at run
      time.
    - [Biomarker] records and the [hand]/[deck]/[discardPile] arrays are
      never updated in place by the engine ([filter], [slice] and spread all
      build new values), so they are embedded as plain values.
    - A [number] that holds a biomarker reading or a delta is an exact
      rational ([Q]); a [number] that holds a count ([turnCount], [score])
      is a [Z].  IEEE rounding and NaN are outside the model.
    - [new Date()] reads a clock carried by the world.
    - A property lookup that yields [undefined] and is then dereferenced
      raises [TypeError]. *)

From Stdlib Require Import ZArith QArith Qabs Qround Lia Lqa.
From stdpp Require Import base option list strings pretty gmap.

Local Open Scope Z_scope.

Definition loc := positive.
Definition Date := Z.

(** ** biomarker.model *)

Inductive HomeostaticSystem := GLUCOSE | PH | TEMPERATURE.

Inductive Trend := stable | increasing | decreasing.

Module Biomarker.
Record t := mk {
  system : HomeostaticSystem;
  name : string;
  currentValue : Q;
  normalRange : Q * Q;
  criticalRange : Q * Q;
  unit : string;
  isCritical : bool;
  trend : Trend;
  lastUpdate : Date
}.
End Biomarker.

Module HomeostaticState.
Record t := mk {
  glucose : Biomarker.t;
  ph : Biomarker.t;
  temperature : Biomarker.t
}.

(** [state[key]] *)
Definition get (key : string) (st : t) : option Biomarker.t :=
  if String.eqb key "glucose" then Some (glucose st)
  else if String.eqb key "ph" then Some (ph st)
  else if String.eqb key "temperature" then Some (temperature st)
  else None.

(** [state[key] = b], for one of the three keys the object has *)
Definition set (key : string) (b : Biomarker.t) (st : t) : t :=
  if String.eqb key "glucose" then mk b (ph st) (temperature st)
  else if String.eqb key "ph" then mk (glucose st) b (temperature st)
  else if String.eqb key "temperature" then mk (glucose st) (ph st) b
  else st.

(** [Object.values(state)], in property order *)
Definition values (st : t) : list Biomarker.t :=
  [glucose st; ph st; temperature st].
End HomeostaticState.

Module BiomarkerHistory.
Record t := mk {
  timestamp : Date;
  system : string;
  oldValue : Q;
  newValue : Q;
  change : Q;
  reason : string
}.
End BiomarkerHistory.

(** ** card.model *)

Inductive CardType := ACTION | EVENT.
Inductive CardRarity := COMMON | RARE | EPIC | LEGENDARY.
Inductive EffectType := INSTANT | CONTINUOUS | CONDITIONAL.

Module CardEffect.
Record t := mk {
  targetSystem : string;
  value : Q;
  duration : option Q;
  type : EffectType;
  condition : option string
}.
End CardEffect.

Module Card.
Record t := mk {
  id : string;
  name : string;
  type : CardType;
  description : string;
  imageUrl : string;
  effects : list CardEffect.t;
  cost : Z;
  rarity : CardRarity;
  flavorText : option string;
  educationalNote : option string
}.
End Card.

(** ** game.model *)

Inductive GameStatus := LOBBY | IN_PROGRESS | VICTORY | DEFEAT | PAUSED.
Inductive EventType := RANDOM | SCHEDULED | TRIGGERED.
Inductive Severity := mild | moderate | severe | critical.
Inductive Difficulty := easy | medium | hard.

Module GameEvent.
Record effect := mkEffect {
  system : string;
  value : Q;
  duration : Q
}.
Record t := mk {
  id : string;
  title : string;
  description : string;
  type : EventType;
  effects : list effect;
  severity : Severity;
  icon : option string
}.
End GameEvent.

Module GameSession.
Record t := mk {
  id : string;
  playerId : string;
  status : GameStatus;
  currentState : loc;
  hand : list Card.t;
  deck : list Card.t;
  discardPile : list Card.t;
  currentEvent : option GameEvent.t;
  score : Z;
  turnCount : Z;
  startTime : Date;
  lastSave : Date;
  difficulty : Difficulty
}.

(** Field assignments [s.f = v] on a session object. *)
Definition set_status (v : GameStatus) (s : t) : t :=
  mk (id s) (playerId s) v (currentState s) (hand s) (deck s)
     (discardPile s) (currentEvent s) (score s) (turnCount s)
     (startTime s) (lastSave s) (difficulty s).
Definition set_hand (v : list Card.t) (s : t) : t :=
  mk (id s) (playerId s) (status s) (currentState s) v (deck s)
     (discardPile s) (currentEvent s) (score s) (turnCount s)
     (startTime s) (lastSave s) (difficulty s).
Definition set_deck (v : list Card.t) (s : t) : t :=
  mk (id s) (playerId s) (status s) (currentState s) (hand s) v
     (discardPile s) (currentEvent s) (score s) (turnCount s)
     (startTime s) (lastSave s) (difficulty s).
Definition set_discardPile (v : list Card.t) (s : t) : t :=
  mk (id s) (playerId s) (status s) (currentState s) (hand s) (deck s)
     v (currentEvent s) (score s) (turnCount s)
     (startTime s) (lastSave s) (difficulty s).
Definition set_turnCount (v : Z) (s : t) : t :=
  mk (id s) (playerId s) (status s) (currentState s) (hand s) (deck s)
     (discardPile s) (currentEvent s) (score s) v
     (startTime s) (lastSave s) (difficulty s).

(** The three piles, as one sequence. *)
Definition piles (s : t) : list Card.t := hand s ++ deck s ++ discardPile s.

Definition set_currentEvent (v : option GameEvent.t) (s : t) : t :=
  mk (id s) (playerId s) (status s) (currentState s) (hand s) (deck s)
     (discardPile s) v (score s) (turnCount s)
     (startTime s) (lastSave s) (difficulty s).
Definition set_score (v : Z) (s : t) : t :=
  mk (id s) (playerId s) (status s) (currentState s) (hand s) (deck s)
     (discardPile s) (currentEvent s) v (turnCount s)
     (startTime s) (lastSave s) (difficulty s).
End GameSession.

(** ** The store, the clock and the monad of engine code *)

Inductive object :=
| SessionObj (s : GameSession.t)
| StateObj (st : HomeostaticState.t).

Record World := mkWorld {
  store : gmap loc object;
  clock : nat -> Date;
  ticks : nat
}.

Inductive exn := TypeError.

Inductive outcome (A : Type) :=
| Returns (a : A) (w : World)
| Throws (e : exn) (w : World).
Arguments Returns {A} a w.
Arguments Throws {A} e w.

Definition M (A : Type) : Type := World -> outcome A.

Definition throw {A} (e : exn) : M A := fun w => Throws e w.

#[global] Instance M_ret : MRet M := fun A a w => Returns a w.
#[global] Instance M_bind : MBind M := fun A B k m w =>
  match m w with
  | Returns a w' => k a w'
  | Throws e w' => Throws e w'
  end.

(** Allocation of a new object: its address is one the store does not use. *)
Definition alloc (o : object) : M loc :=
  fun w => let l := fresh (dom (store w)) in
           Returns l (mkWorld (<[l := o]> (store w)) (clock w) (ticks w)).

Definition getSession (l : loc) : M GameSession.t :=
  fun w => match store w !! l with
           | Some (SessionObj s) => Returns s w
           | _ => Throws TypeError w
           end.

Definition getState (l : loc) : M HomeostaticState.t :=
  fun w => match store w !! l with
           | Some (StateObj st) => Returns st w
           | _ => Throws TypeError w
           end.

Definition putObject (l : loc) (o : object) : M unit :=
  fun w => Returns tt (mkWorld (<[l := o]> (store w)) (clock w) (ticks w)).

(** [session.f = v] *)
Definition assign (l : loc) (f : GameSession.t -> GameSession.t) : M unit :=
  s ← getSession l; putObject l (SessionObj (f s)).

(** [new Date()] *)
Definition newDate : M Date :=
  fun w => Returns (clock w (ticks w)) (mkWorld (store w) (clock w) (S (ticks w))).

(** [{ ...session }] *)
Definition spread (session : loc) : M loc :=
  s ← getSession session; alloc (SessionObj s).

Fixpoint foldM {A B} (f : B -> A -> M B) (l : list A) (b : B) : M B :=
  match l with
  | [] => mret b
  | a :: l' => b' ← f b a; foldM f l' b'
  end.

(** ** GameEngine *)

(** [x < y] on numbers *)
Definition Qltb (x y : Q) : bool := negb (Qle_bool y x).

Module GameEngine.

Definition isCritical (biomarker : Biomarker.t) (value : Q) : bool :=
  let '(minNormal, maxNormal) := Biomarker.normalRange biomarker in
  let '(minCritical, maxCritical) := Biomarker.criticalRange biomarker in
  Qltb value minCritical || Qltb maxCritical value.

Definition calculateTrend (oldValue newValue : Q) : Trend :=
  let diff := (newValue - oldValue)%Q in
  if Qltb (Qabs diff) (1 # 10) then stable
  else if Qltb 0 diff then increasing else decreasing.

(** [session.currentState[key]], dereferenced by the caller.  For a key
    the state object does not have, the read of [.currentValue] or, for a
    name inherited from [Object.prototype], the destructuring of the
    missing [normalRange] in [isCritical] raises [TypeError] before
    anything is written. *)
Definition currentBiomarker (session : loc) (key : string) : M Biomarker.t :=
  s ← getSession session;
  st ← getState (GameSession.currentState s);
  match HomeostaticState.get key st with
  | Some b => mret b
  | None => throw TypeError
  end.

(** [session.currentState[key] = b]: an update of the state object the
    session refers to *)
Definition setCurrentBiomarker (session : loc) (key : string)
    (b : Biomarker.t) : M unit :=
  s ← getSession session;
  st ← getState (GameSession.currentState s);
  putObject (GameSession.currentState s)
            (StateObj (HomeostaticState.set key b st)).

(** The body of the [forEach] callback of [processTurn]; [history] is the
    array the callback pushes to.  The callback reads
    [newSession.currentState[systemKey]] three times with no write in
    between; the embedding reads it once. *)
Definition applyEffect (newSession : loc) (playedCard : Card.t)
    (history : list BiomarkerHistory.t) (effect : CardEffect.t)
    : M (list BiomarkerHistory.t) :=
  let systemKey := CardEffect.targetSystem effect in
  b ← currentBiomarker newSession systemKey;
  let oldValue := Biomarker.currentValue b in
  let newValue := (oldValue + CardEffect.value effect)%Q in
  now ← newDate;
  setCurrentBiomarker newSession systemKey
    (Biomarker.mk (Biomarker.system b) (Biomarker.name b)
       newValue
       (Biomarker.normalRange b) (Biomarker.criticalRange b)
       (Biomarker.unit b)
       (isCritical b newValue)
       (calculateTrend oldValue newValue)
       now);;
  stamp ← newDate;
  mret (history ++
       [BiomarkerHistory.mk stamp systemKey oldValue newValue
          (CardEffect.value effect)
          ("Card played: " +:+ Card.name playedCard)]).

(** [system.currentValue >= system.normalRange[0] &&
     system.currentValue <= system.normalRange[1]], the test shared by
    [checkGameEnd] and [getScore] *)
Definition withinNormal (system : Biomarker.t) : bool :=
  Qle_bool (fst (Biomarker.normalRange system)) (Biomarker.currentValue system)
  && Qle_bool (Biomarker.currentValue system) (snd (Biomarker.normalRange system)).

Definition checkGameEnd (session : loc) : M GameStatus :=
  s ← getSession session;
  st ← getState (GameSession.currentState s);
  let systems := HomeostaticState.values st in
  let criticalSystems := filter (fun system => Biomarker.isCritical system = true) systems in
  if (2 <=? Z.of_nat (length criticalSystems)) then mret DEFEAT
  else
    let allStable :=
      forallb (fun system => negb (Biomarker.isCritical system) && withinNormal system)
              systems in
    if allStable && (5 <? GameSession.turnCount s) then mret VICTORY
    else mret IN_PROGRESS.

Definition processTurn (session : loc) (playedCard : Card.t)
    : M (loc * list BiomarkerHistory.t) :=
  newSession ← spread session;
  history ← foldM (applyEffect newSession playedCard) (Card.effects playedCard) [];
  assign newSession (fun s =>
    GameSession.set_hand
      (filter (fun card => Card.id card ≠ Card.id playedCard) (GameSession.hand s)) s);;
  assign newSession (fun s =>
    GameSession.set_discardPile (GameSession.discardPile s ++ [playedCard]) s);;
  status ← checkGameEnd newSession;
  assign newSession (GameSession.set_status status);;
  assign newSession (fun s => GameSession.set_turnCount (GameSession.turnCount s + 1) s);;
  mret (newSession, history).

Definition drawCard (session : loc) : M (loc * option Card.t) :=
  newSession ← spread session;
  s ← getSession newSession;
  (if (length (GameSession.deck s) =? 0)%nat then
     assign newSession (fun s => GameSession.set_deck (GameSession.discardPile s) s);;
     assign newSession (GameSession.set_discardPile [])
   else mret tt);;
  s ← getSession newSession;
  match GameSession.deck s with
  | [] => mret (newSession, None)
  | drawnCard :: rest =>
      assign newSession (GameSession.set_deck rest);;
      assign newSession (fun s => GameSession.set_hand (GameSession.hand s ++ [drawnCard]) s);;
      mret (newSession, Some drawnCard)
  end.

Definition getScore (session : loc) : M Z :=
  s ← getSession session;
  st ← getState (GameSession.currentState s);
  let baseScore := 1000 in
  let turnPenalty := GameSession.turnCount s * 10 in
  let criticalPenalty :=
    Z.of_nat (length (filter (fun b => Biomarker.isCritical b = true)
                             (HomeostaticState.values st))) * 50 in
  let stabilityBonus :=
    Z.of_nat (length (filter (fun b => withinNormal b = true)
                             (HomeostaticState.values st))) * 100 in
  mret (Z.max 0 (baseScore - turnPenalty - criticalPenalty + stabilityBonus)).

(** The table of [generateRandomEvent]. *)
Definition events : list GameEvent.t :=
  [
   GameEvent.mk "random-glucose-spike" "Pico Glicêmico Inesperado"
     "Estresse ou alimentação causou aumento súbito de glicose."
     RANDOM [GameEvent.mkEffect "glucose" (25 # 1) (0 # 1)] moderate (Some "🍰");
   GameEvent.mk "dehydration-risk" "Risco de Desidratação"
     "Perda excessiva de fluidos está afetando o equilíbrio."
     RANDOM [GameEvent.mkEffect "ph" (-1 # 10) (0 # 1)] mild (Some "💧");
   GameEvent.mk "infection-response" "Resposta Infecciosa"
     "O corpo está combatendo uma infecção, aumentando temperatura."
     RANDOM [GameEvent.mkEffect "temperature" (3 # 2) (2 # 1)] moderate (Some "🤒");
   GameEvent.mk "exercise-effect" "Efeito do Exercício"
     "Atividade física está regulando o metabolismo."
     RANDOM [GameEvent.mkEffect "glucose" (-15 # 1) (0 # 1); GameEvent.mkEffect "temperature" (1 # 2) (1 # 1)] mild (Some "🏃")
  ].

(** [events[Math.floor(Math.random() * events.length)]]; [random] is the
    value [Math.random()] returned, and an index outside the table reads
    [undefined]. *)
Definition generateRandomEvent (random : Q) : option GameEvent.t :=
  let index := Qfloor (random * inject_Z (Z.of_nat (length events))) in
  if index <? 0 then None else events !! Z.to_nat index.

End GameEngine.

(** ** The application component that drives the engine

    The handlers of [App] that call the engine.  Each returns the session
    it hands to [setGameSession], or [None] when it returns before that
    call.  What a handler does afterwards (the request of [saveSession],
    the timer that switches the screen) reads the session and is not part
    of the model. *)

#[global] Instance CardType_eq_dec : EqDecision CardType.
Proof. solve_decision. Defined.

#[global] Instance GameStatus_eq_dec : EqDecision GameStatus.
Proof. solve_decision. Defined.

Module App.

(** [createNewGameSession]; [initialCards] is the card table of
    [core/data/card-data], and [Date.now().toString()] is the decimal
    rendering of the clock reading. *)
Fixpoint drawLoop (n : nat) (updatedSession : loc) : M loc :=
  match n with
  | O => mret updatedSession
  | S n' =>
      result ← GameEngine.drawCard updatedSession;
      drawLoop n' (fst result)
  end.

Definition createNewGameSession (initialCards : list Card.t)
    (difficulty : Difficulty) (system : string) : M loc :=
  now ← newDate;
  glucoseUpdate ← newDate;
  phUpdate ← newDate;
  temperatureUpdate ← newDate;
  currentState ← alloc (StateObj (HomeostaticState.mk
    (Biomarker.mk GLUCOSE "Glicemia" (90 # 1) (70 # 1, 110 # 1) (50 # 1, 140 # 1)
       "mg/dL" false stable glucoseUpdate)
    (Biomarker.mk PH "pH Sangu√≠neo" (74 # 10) (735 # 100, 745 # 100) (72 # 10, 76 # 10)
       "" false stable phUpdate)
    (Biomarker.mk TEMPERATURE "Temperatura" (37 # 1) (365 # 10, 375 # 10) (35 # 1, 39 # 1)
       "¬∞C" false stable temperatureUpdate)));
  startTime ← newDate;
  lastSave ← newDate;
  newSession ← alloc (SessionObj (GameSession.mk
    (pretty now) "player-1" IN_PROGRESS currentState
    []
    (filter (fun card => Card.type card = ACTION) initialCards)
    [] None 0 0 startTime lastSave difficulty));
  drawLoop 5 newSession;;
  mret newSession.

Definition handlePlayCard (card : Card.t) (gameSession : option loc)
    : M (option loc) :=
  match gameSession with
  | None => mret None
  | Some gameSession =>
      s ← getSession gameSession;
      if decide (GameSession.status s ≠ IN_PROGRESS) then mret None
      else
        result ← GameEngine.processTurn gameSession card;
        mret (Some (fst result))
  end.

Definition handleDrawCard (gameSession : option loc) : M (option loc) :=
  match gameSession with
  | None => mret None
  | Some gameSession =>
      s ← getSession gameSession;
      if decide (GameSession.status s ≠ IN_PROGRESS) then mret None
      else
        result ← GameEngine.drawCard gameSession;
        mret (Some (fst result))
  end.

(** The body of the [forEach] callback of [handleEndTurn]. *)
Definition applyEventEffect (newSession : loc) (effect : GameEvent.effect)
    : M unit :=
  let systemKey := GameEvent.system effect in
  system ← GameEngine.currentBiomarker newSession systemKey;
  let newValue := (Biomarker.currentValue system + GameEvent.value effect)%Q in
  now ← newDate;
  GameEngine.setCurrentBiomarker newSession systemKey
    (Biomarker.mk (Biomarker.system system) (Biomarker.name system)
       newValue
       (Biomarker.normalRange system) (Biomarker.criticalRange system)
       (Biomarker.unit system)
       (Qltb newValue (fst (Biomarker.criticalRange system))
        || Qltb (snd (Biomarker.criticalRange system)) newValue)
       (Biomarker.trend system)
       now).

(** [handleEndTurn]; [random] is the value of [Math.random()] inside
    [generateRandomEvent].  An [undefined] event would raise at
    [event.effects], after the session has been copied. *)
Definition handleEndTurn (random : Q) (gameSession : option loc)
    : M (option loc) :=
  match gameSession with
  | None => mret None
  | Some gameSession =>
      let event := GameEngine.generateRandomEvent random in
      newSession ← spread gameSession;
      match event with
      | None => throw TypeError
      | Some event =>
          foldM (fun _ effect => applyEventEffect newSession effect)
                (GameEvent.effects event) tt;;
          assign newSession (GameSession.set_currentEvent (Some event));;
          score ← GameEngine.getScore newSession;
          assign newSession (GameSession.set_score score);;
          assign newSession
            (fun s => GameSession.set_turnCount (GameSession.turnCount s + 1) s);;
          mret (Some newSession)
      end
  end.

End App.

(** ** Summaries of the engine's loops and branches

    Pure functions that say what the monadic code above computes on a
    session value and on the state object it refers to; the lemmas of the
    second part connect each of them to the code. *)

Module Summary.

(** The biomarker object literal built in the [forEach] callback. *)
Definition updated (b : Biomarker.t) (delta : Q) (now : Date) : Biomarker.t :=
  let oldValue := Biomarker.currentValue b in
  let newValue := (oldValue + delta)%Q in
  Biomarker.mk (Biomarker.system b) (Biomarker.name b) newValue
    (Biomarker.normalRange b) (Biomarker.criticalRange b) (Biomarker.unit b)
    (GameEngine.isCritical b newValue)
    (GameEngine.calculateTrend oldValue newValue)
    now.

(** One turn of the loop on the state object; [None] when the target key
    is not a key of the state. *)
Definition effectOn (now : Date) (effect : CardEffect.t)
    (st : HomeostaticState.t) : option HomeostaticState.t :=
  match HomeostaticState.get (CardEffect.targetSystem effect) st with
  | Some b =>
      Some (HomeostaticState.set (CardEffect.targetSystem effect)
              (updated b (CardEffect.value effect) now) st)
  | None => None
  end.

(** The whole loop; each turn reads the clock twice. *)
Fixpoint effectsOn (clk : nat -> Date) (t : nat) (effects : list CardEffect.t)
    (st : HomeostaticState.t) : option HomeostaticState.t :=
  match effects with
  | [] => Some st
  | effect :: rest =>
      match effectOn (clk t) effect st with
      | Some st' => effectsOn clk (S (S t)) rest st'
      | None => None
      end
  end.

Definition validTarget (effect : CardEffect.t) : Prop :=
  CardEffect.targetSystem effect = "glucose" ∨
  CardEffect.targetSystem effect = "ph" ∨
  CardEffect.targetSystem effect = "temperature".

(** A card the content validation lets through: every effect names one of
    the three systems. *)
Definition validCard (card : Card.t) : Prop :=
  Forall validTarget (Card.effects card).

Definition criticalCount (st : HomeostaticState.t) : nat :=
  length (filter (fun b => Biomarker.isCritical b = true)
                 (HomeostaticState.values st)).

(** The reading lies within the normal range, bounds included. *)
Definition inNormalRange (b : Biomarker.t) : Prop :=
  (fst (Biomarker.normalRange b) <= Biomarker.currentValue b)%Q ∧
  (Biomarker.currentValue b <= snd (Biomarker.normalRange b))%Q.

#[global] Instance Qle_decision (x y : Q) : Decision (x <= y)%Q :=
  match Qlt_le_dec y x with
  | left H => right (Qlt_not_le y x H)
  | right H => left H
  end.

#[global] Instance inNormalRange_dec (b : Biomarker.t) :
  Decision (inNormalRange b) := and_dec _ _.

Definition stableCount (st : HomeostaticState.t) : nat :=
  length (filter inNormalRange (HomeostaticState.values st)).

(** The decision of [checkGameEnd] on a state value and a turn count. *)
Definition gameEnd (st : HomeostaticState.t) (turnCount : Z) : GameStatus :=
  if 2 <=? Z.of_nat (criticalCount st) then DEFEAT
  else if forallb (fun b => negb (Biomarker.isCritical b) && GameEngine.withinNormal b)
                  (HomeostaticState.values st)
          && (5 <? turnCount)
       then VICTORY else IN_PROGRESS.

(** The session object [processTurn] returns, given the state object as
    the loop left it. *)
Definition played (playedCard : Card.t) (st' : HomeostaticState.t)
    (s : GameSession.t) : GameSession.t :=
  GameSession.mk (GameSession.id s) (GameSession.playerId s)
    (gameEnd st' (GameSession.turnCount s))
    (GameSession.currentState s)
    (filter (fun card => Card.id card ≠ Card.id playedCard) (GameSession.hand s))
    (GameSession.deck s)
    (GameSession.discardPile s ++ [playedCard])
    (GameSession.currentEvent s) (GameSession.score s)
    (GameSession.turnCount s + 1)
    (GameSession.startTime s) (GameSession.lastSave s)
    (GameSession.difficulty s).

(** The deck [drawCard] draws from: the discard pile when the deck is
    empty. *)
Definition reshuffled (s : GameSession.t) : GameSession.t :=
  match GameSession.deck s with
  | [] => GameSession.set_discardPile []
            (GameSession.set_deck (GameSession.discardPile s) s)
  | _ :: _ => s
  end.

(** The session object [drawCard] returns. *)
Definition drawn (s : GameSession.t) : GameSession.t :=
  let s1 := reshuffled s in
  match GameSession.deck s1 with
  | [] => s1
  | drawnCard :: rest =>
      GameSession.set_hand (GameSession.hand s1 ++ [drawnCard])
        (GameSession.set_deck rest s1)
  end.

Definition drawnCard (s : GameSession.t) : option Card.t :=
  head (GameSession.deck (reshuffled s)).

(** Number of cards of a pile that carry a given id. *)
Definition copies (cardId : string) (pile : list Card.t) : nat :=
  length (filter (fun card => Card.id card = cardId) pile).

(** All three biomarkers are flagged non-critical and read within their
    normal range. *)
Definition allStable (st : HomeostaticState.t) : Prop :=
  ∀ b, b ∈ HomeostaticState.values st →
    Biomarker.isCritical b = false ∧ inNormalRange b.

End Summary.

(** ** Further summaries: history, totals, the end-of-turn event *)

Module Detail.

#[global] Instance validTarget_dec (effect : CardEffect.t) :
  Decision (Summary.validTarget effect).
Proof. unfold Summary.validTarget. apply _. Defined.

(** The history record pushed for one effect on biomarker [b]. *)
Definition entryOf (cardName : string) (stamp : Date) (effect : CardEffect.t)
    (b : Biomarker.t) : BiomarkerHistory.t :=
  BiomarkerHistory.mk stamp (CardEffect.targetSystem effect)
    (Biomarker.currentValue b)
    (Biomarker.currentValue b + CardEffect.value effect)%Q
    (CardEffect.value effect)
    ("Card played: " +:+ cardName).

(** The records the loop of [processTurn] pushes, in order. *)
Fixpoint historyOn (clk : nat -> Date) (t : nat) (cardName : string)
    (effects : list CardEffect.t) (st : HomeostaticState.t)
    : list BiomarkerHistory.t :=
  match effects with
  | [] => []
  | effect :: rest =>
      match HomeostaticState.get (CardEffect.targetSystem effect) st with
      | Some b =>
          entryOf cardName (clk (S t)) effect b
          :: historyOn clk (S (S t)) cardName rest
               (HomeostaticState.set (CardEffect.targetSystem effect)
                  (Summary.updated b (CardEffect.value effect) (clk t)) st)
      | None => []
      end
  end.

(** Sum of the deltas of the effects that target [key]. *)
Definition totalDelta (key : string) (effects : list CardEffect.t) : Q :=
  foldr (fun effect acc =>
           if String.eqb (CardEffect.targetSystem effect) key
           then (CardEffect.value effect + acc)%Q else acc)
        0%Q effects.

(** The flag of a biomarker agrees with its reading: it is set exactly
    when the reading lies outside the critical range. *)
Definition consistent (b : Biomarker.t) : Prop :=
  Biomarker.isCritical b = GameEngine.isCritical b (Biomarker.currentValue b).

(** Every flag agrees with the reading it sits next to. *)
Definition flagsConsistent (st : HomeostaticState.t) : Prop :=
  ∀ b, b ∈ HomeostaticState.values st →
    Biomarker.isCritical b = GameEngine.isCritical b (Biomarker.currentValue b).

(** The biomarker object literal built in the callback of
    [handleEndTurn]. *)
Definition eventUpdated (system : Biomarker.t) (delta : Q) (now : Date)
    : Biomarker.t :=
  let newValue := (Biomarker.currentValue system + delta)%Q in
  Biomarker.mk (Biomarker.system system) (Biomarker.name system) newValue
    (Biomarker.normalRange system) (Biomarker.criticalRange system)
    (Biomarker.unit system)
    (Qltb newValue (fst (Biomarker.criticalRange system))
     || Qltb (snd (Biomarker.criticalRange system)) newValue)
    (Biomarker.trend system)
    now.

(** The loop of [handleEndTurn] on the state object; each turn reads the
    clock once. *)
Fixpoint eventEffectsOn (clk : nat -> Date) (t : nat)
    (effects : list GameEvent.effect) (st : HomeostaticState.t)
    : option HomeostaticState.t :=
  match effects with
  | [] => Some st
  | effect :: rest =>
      match HomeostaticState.get (GameEvent.system effect) st with
      | Some system =>
          eventEffectsOn clk (S t) rest
            (HomeostaticState.set (GameEvent.system effect)
               (eventUpdated system (GameEvent.value effect) (clk t)) st)
      | None => None
      end
  end.

(** The score [getScore] computes from a turn count and a state. *)
Definition scoreOf (turnCount : Z) (st : HomeostaticState.t) : Z :=
  Z.max 0 (1000 - turnCount * 10
           - Z.of_nat (Summary.criticalCount st) * 50
           + Z.of_nat (Summary.stableCount st) * 100).

(** The session object [handleEndTurn] hands to [setGameSession], given
    the state object as the event left it. *)
Definition ended (event : GameEvent.t) (st' : HomeostaticState.t)
    (s : GameSession.t) : GameSession.t :=
  GameSession.mk (GameSession.id s) (GameSession.playerId s)
    (GameSession.status s) (GameSession.currentState s)
    (GameSession.hand s) (GameSession.deck s) (GameSession.discardPile s)
    (Some event)
    (scoreOf (GameSession.turnCount s) st')
    (GameSession.turnCount s + 1)
    (GameSession.startTime s) (GameSession.lastSave s)
    (GameSession.difficulty s).

(** The state object [createNewGameSession] builds when the clock reads
    [clk t] at its first [new Date()]. *)
Definition initialState (clk : nat -> Date) (t : nat) : HomeostaticState.t :=
  HomeostaticState.mk
    (Biomarker.mk GLUCOSE "Glicemia" (90 # 1) (70 # 1, 110 # 1) (50 # 1, 140 # 1)
       "mg/dL" false stable (clk (S t)))
    (Biomarker.mk PH "pH Sangu√≠neo" (74 # 10) (735 # 100, 745 # 100) (72 # 10, 76 # 10)
       "" false stable (clk (S (S t))))
    (Biomarker.mk TEMPERATURE "Temperatura" (37 # 1) (365 # 10, 375 # 10) (35 # 1, 39 # 1)
       "¬∞C" false stable (clk (S (S (S t))))).

(** An event effect that names one of the three systems. *)
Definition validEventTarget (effect : GameEvent.effect) : Prop :=
  GameEvent.system effect = "glucose" ∨
  GameEvent.system effect = "ph" ∨
  GameEvent.system effect = "temperature".

(** Sum of the deltas of the event effects that target [key]. *)
Definition totalEventDelta (key : string) (effects : list GameEvent.effect) : Q :=
  foldr (fun effect acc =>
           if String.eqb (GameEvent.system effect) key
           then (GameEvent.value effect + acc)%Q else acc)
        0%Q effects.

End Detail.

(** ** A session as the application creates it

    The readings and ranges of [createNewGameSession]; used to run the
    engine on concrete turns. *)

Module Demo.

Definition glucose (value : Q) (crit : bool) : Biomarker.t :=
  Biomarker.mk GLUCOSE "Glicemia" value (70 # 1, 110 # 1) (50 # 1, 140 # 1)
    "mg/dL" crit stable 0.
Definition ph (value : Q) (crit : bool) : Biomarker.t :=
  Biomarker.mk PH "pH" value (147 # 20, 149 # 20) (36 # 5, 38 # 5)
    "" crit stable 0.
Definition temperature (value : Q) (crit : bool) : Biomarker.t :=
  Biomarker.mk TEMPERATURE "Temperatura" value (73 # 2, 75 # 2) (35 # 1, 39 # 1)
    "C" crit stable 0.

(** glucose 90, pH 7.4, temperature 37: all three within normal range *)
Definition normalState : HomeostaticState.t :=
  HomeostaticState.mk (glucose (90 # 1) false) (ph (37 # 5) false)
    (temperature (37 # 1) false).

Definition effect (key : string) (delta : Q) : CardEffect.t :=
  CardEffect.mk key delta None INSTANT None.

Definition card (cardId : string) (effects : list CardEffect.t) : Card.t :=
  Card.mk cardId cardId ACTION "" "" effects 1 COMMON None None.

Definition session (status : GameStatus) (turnCount : Z)
    (hand deck discardPile : list Card.t) : GameSession.t :=
  GameSession.mk "session-1" "player-1" status 2%positive hand deck
    discardPile None 0 turnCount 0 0 easy.

(** A world with one session object (at address 1) and its state object
    (at address 2). *)
Definition world (s : GameSession.t) (st : HomeostaticState.t) : World :=
  mkWorld (<[1%positive := SessionObj s]> (<[2%positive := StateObj st]> ∅))
          (fun n => Z.of_nat n) 0.

Definition cardX := card "card-x" [effect "glucose" (-10 # 1)].
Definition cardY := card "card-y" [effect "ph" (1 # 20)].
Definition neutral := card "rest" [].

(** Pushes glucose and pH out of their critical ranges, then brings both
    back. *)
Definition swing := card "swing"
  [effect "glucose" (-50 # 1); effect "ph" (-3 # 10);
   effect "glucose" (50 # 1); effect "ph" (3 # 10)].

Definition statusOf (o : outcome (loc * list BiomarkerHistory.t)) : option GameStatus :=
  match o with
  | Returns (l, _) w =>
      match store w !! l with
      | Some (SessionObj s) => Some (GameSession.status s)
      | _ => None
      end
  | Throws _ _ => None
  end.

End Demo.

(** * Part two: the engine's code against its summaries *)

Section Monad.
Context {A B : Type}.

Lemma bind_run (m : M A) (k : A -> M B) (w : World) :
  (m ≫= k) w = match m w with
               | Returns a w' => k a w'
               | Throws e w' => Throws e w'
               end.
Proof. reflexivity. Qed.

Lemma bind_returns (m : M A) (k : A -> M B) (w w' : World) (a : A) :
  m w = Returns a w' → (m ≫= k) w = k a w'.
Proof. intros H. rewrite bind_run, H. reflexivity. Qed.
End Monad.

Lemma getSession_eq (l : loc) (s : GameSession.t) (w : World) :
  store w !! l = Some (SessionObj s) → getSession l w = Returns s w.
Proof. intros H. unfold getSession. rewrite H. reflexivity. Qed.

Lemma getState_eq (l : loc) (st : HomeostaticState.t) (w : World) :
  store w !! l = Some (StateObj st) → getState l w = Returns st w.
Proof. intros H. unfold getState. rewrite H. reflexivity. Qed.

Lemma assign_eq (l : loc) (f : GameSession.t → GameSession.t)
    (s : GameSession.t) (w : World) :
  store w !! l = Some (SessionObj s) →
  assign l f w =
    Returns tt (mkWorld (<[l := SessionObj (f s)]> (store w)) (clock w) (ticks w)).
Proof.
  intros H. unfold assign.
  rewrite (bind_returns _ _ _ _ _ (getSession_eq _ _ _ H)). reflexivity.
Qed.

Lemma fresh_unused (w : World) : store w !! fresh (dom (store w)) = None.
Proof. apply not_elem_of_dom, is_fresh. Qed.

Lemma spread_eq (l : loc) (s : GameSession.t) (w : World) :
  store w !! l = Some (SessionObj s) →
  spread l w =
    Returns (fresh (dom (store w)))
      (mkWorld (<[fresh (dom (store w)) := SessionObj s]> (store w))
               (clock w) (ticks w)).
Proof.
  intros H. unfold spread.
  rewrite (bind_returns _ _ _ _ _ (getSession_eq _ _ _ H)). reflexivity.
Qed.

(** A session object and a state object never share an address. *)
Lemma session_state_apart (w : World) (l l' : loc) s st :
  store w !! l = Some (SessionObj s) →
  store w !! l' = Some (StateObj st) → l ≠ l'.
Proof. intros H1 H2 ->. congruence. Qed.

Ltac run H := rewrite (bind_returns _ _ _ _ _ H); cbn [store clock ticks].

(** Runs the next [assign] of the goal on a session object whose lookup is
    known. *)
Ltac assign_at s :=
  match goal with
  | |- context [(assign ?l ?f ≫= _) ?w] =>
      let H := fresh in
      assert (H : store w !! l = Some (SessionObj s))
        by (cbn [store]; rewrite ?lookup_insert_ne by done; apply lookup_insert_eq);
      rewrite (bind_returns _ _ _ _ _ (assign_eq l f s w H));
      cbn [store clock ticks]; clear H
  end.

Ltac assign_at_top :=
  rewrite (bind_returns _ _ _ _ _ (assign_eq _ _ _ _ (lookup_insert_eq _ _ _)));
  cbn [store clock ticks].

Module Loop.
Import GameEngine Summary.

Lemma get_valid (effect : CardEffect.t) (st : HomeostaticState.t) :
  validTarget effect →
  is_Some (HomeostaticState.get (CardEffect.targetSystem effect) st).
Proof.
  unfold HomeostaticState.get.
  intros [-> | [-> | ->]]; cbn; eauto.
Qed.

Lemma effectsOn_valid clk (effects : list CardEffect.t) :
  Forall validTarget effects →
  ∀ t st, is_Some (effectsOn clk t effects st).
Proof.
  induction 1 as [| effect rest Hv _ IH]; intros t st; cbn.
  - eauto.
  - unfold effectOn.
    destruct (get_valid effect st Hv) as [b ->]. apply IH.
Qed.

(** One turn of the [forEach] loop updates the state object in place. *)
Lemma applyEffect_eq (w : World) (l : loc) (s : GameSession.t)
    (st st' : HomeostaticState.t) (card : Card.t)
    (history : list BiomarkerHistory.t) (effect : CardEffect.t) :
  store w !! l = Some (SessionObj s) →
  store w !! GameSession.currentState s = Some (StateObj st) →
  effectOn (clock w (ticks w)) effect st = Some st' →
  ∃ entry,
    applyEffect l card history effect w =
      Returns (history ++ [entry])
        (mkWorld (<[GameSession.currentState s := StateObj st']> (store w))
                 (clock w) (S (S (ticks w)))).
Proof.
  intros Hs Hst Heff. unfold effectOn in Heff.
  destruct (HomeostaticState.get _ st) as [b |] eqn:Hget; [| discriminate].
  injection Heff as <-.
  eexists. unfold applyEffect, currentBiomarker, setCurrentBiomarker.
  unfold mbind, M_bind, mret, M_ret, newDate, putObject, getSession, getState.
  repeat (cbn [store clock ticks]; rewrite ?Hs, ?Hst, ?Hget).
  reflexivity.
Qed.

(** The whole loop: the state object ends as [effectsOn] says; the
    session object is left alone. *)
Lemma foldM_applyEffect (card : Card.t) (l : loc) (s : GameSession.t)
    (effects : list CardEffect.t) :
  ∀ (w : World) (st st' : HomeostaticState.t) (history : list BiomarkerHistory.t),
    store w !! l = Some (SessionObj s) →
    store w !! GameSession.currentState s = Some (StateObj st) →
    effectsOn (clock w) (ticks w) effects st = Some st' →
    ∃ history' t',
      foldM (applyEffect l card) effects history w =
        Returns history'
          (mkWorld (<[GameSession.currentState s := StateObj st']> (store w))
                   (clock w) t').
Proof.
  induction effects as [| effect rest IH]; intros w st st' history Hs Hst Hrun.
  - cbn in Hrun. injection Hrun as <-. exists history, (ticks w). cbn.
    rewrite insert_id by done. by destruct w.
  - cbn in Hrun.
    destruct (effectOn _ effect st) as [st1 |] eqn:Heff; [| discriminate].
    destruct (applyEffect_eq w l s st st1 card history effect Hs Hst Heff)
      as [entry Hstep].
    pose proof (session_state_apart _ _ _ _ _ Hs Hst) as Hne.
    cbn [foldM]. run Hstep.
    edestruct (IH (mkWorld (<[GameSession.currentState s := StateObj st1]> (store w))
                           (clock w) (S (S (ticks w)))) st1 st' (history ++ [entry]))
      as (history' & t' & Hrest); cbn.
    + rewrite lookup_insert_ne by done. exact Hs.
    + apply lookup_insert_eq.
    + exact Hrun.
    + exists history', t'. rewrite Hrest. cbn. by rewrite insert_insert_eq.
Qed.

End Loop.

Module Engine.
Import GameEngine Summary.

Lemma withinNormal_iff (b : Biomarker.t) :
  withinNormal b = true ↔ inNormalRange b.
Proof.
  unfold withinNormal, inNormalRange.
  rewrite andb_true_iff, !Qle_bool_iff. reflexivity.
Qed.

Lemma Qltb_iff (x y : Q) : Qltb x y = true ↔ (x < y)%Q.
Proof.
  unfold Qltb. rewrite negb_true_iff, <- not_true_iff_false, Qle_bool_iff.
  split; [apply Qnot_le_lt | apply Qlt_not_le].
Qed.

Lemma checkGameEnd_eq (w : World) (l : loc) (s : GameSession.t)
    (st : HomeostaticState.t) :
  store w !! l = Some (SessionObj s) →
  store w !! GameSession.currentState s = Some (StateObj st) →
  checkGameEnd l w = Returns (gameEnd st (GameSession.turnCount s)) w.
Proof.
  intros Hs Hst. unfold checkGameEnd.
  run (getSession_eq _ _ _ Hs). run (getState_eq _ _ _ Hst).
  unfold gameEnd, criticalCount.
  destruct (2 <=? _); [reflexivity |].
  destruct (forallb _ _ && _); reflexivity.
Qed.

(** What a call of [processTurn] does to the world: one new session
    object, and the state object of the input session updated in place. *)
Lemma processTurn_eq (w : World) (session : loc) (s : GameSession.t)
    (st : HomeostaticState.t) (card : Card.t) :
  store w !! session = Some (SessionObj s) →
  store w !! GameSession.currentState s = Some (StateObj st) →
  validCard card →
  ∃ st' history t',
    effectsOn (clock w) (ticks w) (Card.effects card) st = Some st' ∧
    processTurn session card w =
      Returns (fresh (dom (store w)), history)
        (mkWorld (<[fresh (dom (store w)) := SessionObj (played card st' s)]>
                    (<[GameSession.currentState s := StateObj st']> (store w)))
                 (clock w) t').
Proof.
  intros Hs Hst Hvalid.
  destruct (Loop.effectsOn_valid (clock w) _ Hvalid (ticks w) st) as [st' Hrun].
  set (new := fresh (dom (store w))).
  assert (Hnew : store w !! new = None) by apply fresh_unused.
  assert (Hne : new ≠ GameSession.currentState s) by (intros E; congruence).
  destruct (Loop.foldM_applyEffect card new s (Card.effects card)
              (mkWorld (<[new := SessionObj s]> (store w)) (clock w) (ticks w))
              st st' [])
    as (history & t' & Hloop); cbn [store clock ticks].
  { apply lookup_insert_eq. }
  { rewrite lookup_insert_ne by done. exact Hst. }
  { exact Hrun. }
  exists st', history, t'. split; [exact Hrun |].
  unfold processTurn.
  run (spread_eq _ _ _ Hs). fold new. run Hloop.
  assign_at s. assign_at_top.
  lazymatch goal with
  | |- (checkGameEnd new ≫= _) ?w2 = _ =>
      lazymatch w2 with
      | mkWorld (<[new := SessionObj ?s2]> _) _ _ =>
          assert (Hend : checkGameEnd new w2
                         = Returns (gameEnd st' (GameSession.turnCount s)) w2)
      end
  end.
  { lazymatch goal with
    | |- context [<[new := SessionObj ?s2]> _] =>
        apply (checkGameEnd_eq _ new s2 st'); cbn [store]
    end.
    - apply lookup_insert_eq.
    - cbn. rewrite !lookup_insert_ne by done. apply lookup_insert_eq. }
  run Hend.
  assign_at_top. assign_at_top.
  unfold mret, M_ret. f_equal. f_equal.
  rewrite !insert_insert_eq.
  rewrite (insert_insert_ne _ (GameSession.currentState s) new) by done.
  rewrite insert_insert_eq. reflexivity.
Qed.

(** What a call of [drawCard] does to the world: one new session object
    and nothing else. *)
Lemma drawCard_eq (w : World) (session : loc) (s : GameSession.t) :
  store w !! session = Some (SessionObj s) →
  drawCard session w =
    Returns (fresh (dom (store w)), drawnCard s)
      (mkWorld (<[fresh (dom (store w)) := SessionObj (drawn s)]> (store w))
               (clock w) (ticks w)).
Proof.
  intros Hs. unfold drawCard.
  run (spread_eq _ _ _ Hs). set (new := fresh (dom (store w))).
  rewrite (bind_returns _ _ _ _ _ (getSession_eq _ _ _ (lookup_insert_eq _ _ _))).
  unfold drawn, drawnCard, reshuffled.
  destruct (GameSession.deck s) as [| top rest] eqn:Hdeck; cbn [length Nat.eqb].
  - rewrite bind_run.
    assign_at_top.
    rewrite (assign_eq _ _ _ _ (lookup_insert_eq _ _ _)); cbn [store clock ticks].
    rewrite (bind_returns _ _ _ _ _ (getSession_eq _ _ _ (lookup_insert_eq _ _ _))).
    cbn [GameSession.deck GameSession.set_deck GameSession.set_discardPile].
    destruct (GameSession.discardPile s) as [| top rest] eqn:Hdiscard.
    + unfold mret, M_ret. cbn. by rewrite !insert_insert_eq.
    + assign_at_top.
      assign_at_top.
      unfold mret, M_ret. cbn. by rewrite !insert_insert_eq.
  - rewrite bind_run. unfold mret at 1, M_ret at 1.
    rewrite (bind_returns _ _ _ _ _ (getSession_eq _ _ _ (lookup_insert_eq _ _ _))).
    rewrite Hdeck.
    assign_at_top.
    assign_at_top.
    unfold mret, M_ret. cbn. by rewrite !insert_insert_eq.
Qed.

(** [getScore] reads the world and leaves it as it is. *)
Lemma getScore_eq (w : World) (session : loc) (s : GameSession.t)
    (st : HomeostaticState.t) :
  store w !! session = Some (SessionObj s) →
  store w !! GameSession.currentState s = Some (StateObj st) →
  getScore session w =
    Returns (Z.max 0 (1000 - GameSession.turnCount s * 10
                      - Z.of_nat (criticalCount st) * 50
                      + Z.of_nat (stableCount st) * 100)) w.
Proof.
  intros Hs Hst. unfold getScore.
  run (getSession_eq _ _ _ Hs). run (getState_eq _ _ _ Hst).
  unfold stableCount.
  rewrite (list_filter_iff inNormalRange (λ b, withinNormal b = true))
    by (intros b; symmetry; apply withinNormal_iff).
  reflexivity.
Qed.

End Engine.

(** * Part three: the properties of the turn resolver *)

(** ** Drawing *)

(** C5. With an empty deck and a discard pile [cardX :: rest], [drawCard]
    returns [cardX] and a session whose deck is [rest] (the discard pile in
    its own order, less its first card), whose hand is the old hand followed
    by [cardX], and whose discard pile is empty; the new deck is one card
    shorter than the old discard pile. *)
Theorem drawCard_reshuffles_in_order (w : World) (session : loc)
    (s : GameSession.t) (cardX : Card.t) (rest : list Card.t) :
  store w !! session = Some (SessionObj s) →
  GameSession.deck s = [] →
  GameSession.discardPile s = cardX :: rest →
  ∃ newSession w' s',
    GameEngine.drawCard session w = Returns (newSession, Some cardX) w' ∧
    store w' !! newSession = Some (SessionObj s') ∧
    GameSession.deck s' = rest ∧
    GameSession.hand s' = GameSession.hand s ++ [cardX] ∧
    GameSession.discardPile s' = [] ∧
    length (GameSession.deck s') = (length (GameSession.discardPile s) - 1)%nat.
Proof.
  intros Hs Hdeck Hdiscard.
  eexists _, _, (Summary.drawn s). split.
  { rewrite (Engine.drawCard_eq w session s Hs).
    unfold Summary.drawnCard, Summary.reshuffled.
    rewrite Hdeck. cbn. rewrite Hdiscard. reflexivity. }
  split; [apply lookup_insert_eq |].
  unfold Summary.drawn, Summary.reshuffled.
  rewrite Hdeck. cbn. rewrite Hdiscard. cbn.
  repeat split. lia.
Qed.

(** Scenario E: deck [[]], discard pile [[cardX; cardY]]. *)
Lemma drawCard_reshuffles_in_order_witness :
  ∃ newSession w' s',
    GameEngine.drawCard 1%positive
      (Demo.world
         (Demo.session IN_PROGRESS 0 [] [] [Demo.cardX; Demo.cardY])
         Demo.normalState)
    = Returns (newSession, Some Demo.cardX) w' ∧
    store w' !! newSession = Some (SessionObj s') ∧
    GameSession.deck s' = [Demo.cardY] ∧
    GameSession.hand s' = [] ++ [Demo.cardX] ∧
    GameSession.discardPile s' = [] ∧
    length (GameSession.deck s') = (2 - 1)%nat.
Proof.
  apply (drawCard_reshuffles_in_order
           (Demo.world
              (Demo.session IN_PROGRESS 0 [] [] [Demo.cardX; Demo.cardY])
              Demo.normalState)
           1%positive
           (Demo.session IN_PROGRESS 0 [] [] [Demo.cardX; Demo.cardY])
           Demo.cardX [Demo.cardY]); reflexivity.
Defined.

(** C9. With deck and discard pile both empty, [drawCard] raises nothing,
    draws no card, and returns a session that holds the input's values in
    every field; the input object and every other object of the store are
    as they were. *)
Theorem drawCard_nothing_to_draw (w : World) (session : loc) (s : GameSession.t) :
  store w !! session = Some (SessionObj s) →
  GameSession.deck s = [] →
  GameSession.discardPile s = [] →
  ∃ newSession w',
    GameEngine.drawCard session w = Returns (newSession, None) w' ∧
    store w' !! newSession = Some (SessionObj s) ∧
    store w' !! session = Some (SessionObj s) ∧
    (∀ l, l ≠ newSession → store w' !! l = store w !! l).
Proof.
  intros Hs Hdeck Hdiscard.
  assert (Hdrawn : Summary.drawn s = s).
  { unfold Summary.drawn, Summary.reshuffled. rewrite Hdeck. cbn.
    rewrite Hdiscard. destruct s; cbn in *; subst; reflexivity. }
  assert (Hcard : Summary.drawnCard s = None).
  { unfold Summary.drawnCard, Summary.reshuffled. rewrite Hdeck. cbn.
    rewrite Hdiscard. reflexivity. }
  eexists _, _. split.
  { rewrite (Engine.drawCard_eq w session s Hs), Hcard, Hdrawn. reflexivity. }
  split; [| split].
  - apply lookup_insert_eq.
  - cbn. rewrite lookup_insert_ne; [exact Hs |].
    intros E. pose proof (fresh_unused w) as Hf. rewrite E in Hf. congruence.
  - intros l Hl. cbn. by rewrite lookup_insert_ne.
Qed.

Lemma drawCard_nothing_to_draw_witness :
  ∃ newSession w',
    GameEngine.drawCard 1%positive
      (Demo.world (Demo.session IN_PROGRESS 3 [Demo.cardX] [] [])
                     Demo.normalState)
    = Returns (newSession, None) w' ∧
    store w' !! newSession
    = Some (SessionObj (Demo.session IN_PROGRESS 3 [Demo.cardX] [] [])) ∧
    store w' !! 1%positive
    = Some (SessionObj (Demo.session IN_PROGRESS 3 [Demo.cardX] [] [])) ∧
    (∀ l, l ≠ newSession →
       store w' !! l
       = store (Demo.world (Demo.session IN_PROGRESS 3 [Demo.cardX] [] [])
                              Demo.normalState) !! l).
Proof.
  apply (drawCard_nothing_to_draw
           (Demo.world (Demo.session IN_PROGRESS 3 [Demo.cardX] [] [])
                          Demo.normalState)
           1%positive
           (Demo.session IN_PROGRESS 3 [Demo.cardX] [] [])); reflexivity.
Defined.

(** ** Scoring *)

(** C6. [getScore] returns
    [max 0 (1000 - 10 * turnCount - 50 * criticalCount + 100 * stableCount)],
    with [criticalCount] the number of biomarkers flagged critical and
    [stableCount] the number whose reading lies within the normal range,
    bounds included.  It leaves the world as it is, its result depends on
    the turn count and the three biomarkers only, and with turn count 10,
    one critical and two stable biomarkers it is 1050. *)
Theorem getScore_formula (w : World) (session : loc) (s : GameSession.t)
    (st : HomeostaticState.t) :
  store w !! session = Some (SessionObj s) →
  store w !! GameSession.currentState s = Some (StateObj st) →
  GameEngine.getScore session w =
    Returns (Z.max 0 (1000 - 10 * GameSession.turnCount s
                      - 50 * Z.of_nat (Summary.criticalCount st)
                      + 100 * Z.of_nat (Summary.stableCount st))) w
  ∧ (∀ (w2 : World) (session2 : loc) (s2 : GameSession.t) (st2 : HomeostaticState.t),
       store w2 !! session2 = Some (SessionObj s2) →
       store w2 !! GameSession.currentState s2 = Some (StateObj st2) →
       GameSession.turnCount s2 = GameSession.turnCount s →
       HomeostaticState.values st2 = HomeostaticState.values st →
       ∃ score, GameEngine.getScore session w = Returns score w ∧
                GameEngine.getScore session2 w2 = Returns score w2)
  ∧ (GameSession.turnCount s = 10 →
     Summary.criticalCount st = 1%nat →
     Summary.stableCount st = 2%nat →
     GameEngine.getScore session w = Returns 1050 w).
Proof.
  intros Hs Hst.
  pose proof (Engine.getScore_eq w session s st Hs Hst) as Heq.
  split; [| split].
  - rewrite Heq. do 2 f_equal. lia.
  - intros w2 session2 s2 st2 Hs2 Hst2 Hturn Hvalues.
    eexists. split; [exact Heq |].
    rewrite (Engine.getScore_eq w2 session2 s2 st2 Hs2 Hst2).
    unfold Summary.criticalCount, Summary.stableCount.
    rewrite Hturn, Hvalues. reflexivity.
  - intros Hturn Hcrit Hstable.
    rewrite Heq, Hturn, Hcrit, Hstable. reflexivity.
Qed.

(** Scenario F: turn count 10, glucose critical, pH and temperature
    stable. *)
Lemma getScore_formula_witness :
  GameEngine.getScore 1%positive
    (Demo.world (Demo.session IN_PROGRESS 10 [] [] [])
       (HomeostaticState.mk (Demo.glucose (40 # 1) true)
          (Demo.ph (37 # 5) false) (Demo.temperature (37 # 1) false)))
  = Returns 1050
      (Demo.world (Demo.session IN_PROGRESS 10 [] [] [])
         (HomeostaticState.mk (Demo.glucose (40 # 1) true)
            (Demo.ph (37 # 5) false) (Demo.temperature (37 # 1) false))).
Proof.
  apply (getScore_formula
           (Demo.world (Demo.session IN_PROGRESS 10 [] [] [])
              (HomeostaticState.mk (Demo.glucose (40 # 1) true)
                 (Demo.ph (37 # 5) false) (Demo.temperature (37 # 1) false)))
           1%positive
           (Demo.session IN_PROGRESS 10 [] [] [])
           (HomeostaticState.mk (Demo.glucose (40 # 1) true)
              (Demo.ph (37 # 5) false) (Demo.temperature (37 # 1) false)));
    vm_compute; reflexivity.
Defined.

(** ** The critical flag *)

Lemma get_set (key : string) (b : Biomarker.t) (st : HomeostaticState.t) :
  is_Some (HomeostaticState.get key st) →
  HomeostaticState.get key (HomeostaticState.set key b st) = Some b.
Proof.
  unfold HomeostaticState.get, HomeostaticState.set.
  destruct (String.eqb key "glucose"); [reflexivity |].
  destruct (String.eqb key "ph"); [reflexivity |].
  destruct (String.eqb key "temperature"); [reflexivity |].
  by intros [? ?].
Qed.

Lemma isCritical_iff (b : Biomarker.t) (value : Q) :
  GameEngine.isCritical b value = true ↔
  (value < fst (Biomarker.criticalRange b))%Q ∨
  (snd (Biomarker.criticalRange b) < value)%Q.
Proof.
  unfold GameEngine.isCritical.
  destruct (Biomarker.normalRange b) as [minNormal maxNormal].
  destruct (Biomarker.criticalRange b) as [minCritical maxCritical]. cbn.
  rewrite orb_true_iff, !Engine.Qltb_iff. reflexivity.
Qed.

(** C7. One effect application of [processTurn] leaves the target
    biomarker with the old reading plus the effect's value and with
    [isCritical] set exactly when that new reading is below the low
    critical bound or above the high one; a new reading equal to either
    bound of a critical range (low bound not above the high one) is not
    critical. *)
Theorem applyEffect_recomputes_isCritical (w : World) (newSession : loc)
    (s : GameSession.t) (st : HomeostaticState.t) (card : Card.t)
    (history : list BiomarkerHistory.t) (effect : CardEffect.t) :
  store w !! newSession = Some (SessionObj s) →
  store w !! GameSession.currentState s = Some (StateObj st) →
  Summary.validTarget effect →
  ∃ history' w' st' b b',
    GameEngine.applyEffect newSession card history effect w = Returns history' w' ∧
    store w' !! GameSession.currentState s = Some (StateObj st') ∧
    HomeostaticState.get (CardEffect.targetSystem effect) st = Some b ∧
    HomeostaticState.get (CardEffect.targetSystem effect) st' = Some b' ∧
    Biomarker.currentValue b' = (Biomarker.currentValue b + CardEffect.value effect)%Q ∧
    Biomarker.criticalRange b' = Biomarker.criticalRange b ∧
    (Biomarker.isCritical b' = true ↔
       (Biomarker.currentValue b' < fst (Biomarker.criticalRange b'))%Q ∨
       (snd (Biomarker.criticalRange b') < Biomarker.currentValue b')%Q) ∧
    ((fst (Biomarker.criticalRange b') <= snd (Biomarker.criticalRange b'))%Q →
     (Biomarker.currentValue b' == fst (Biomarker.criticalRange b'))%Q ∨
     (Biomarker.currentValue b' == snd (Biomarker.criticalRange b'))%Q →
     Biomarker.isCritical b' = false).
Proof.
  intros Hs Hst Hvalid.
  destruct (Loop.get_valid effect st Hvalid) as [b Hget].
  set (b' := Summary.updated b (CardEffect.value effect) (clock w (ticks w))).
  assert (Heff : Summary.effectOn (clock w (ticks w)) effect st
                 = Some (HomeostaticState.set (CardEffect.targetSystem effect) b' st)).
  { unfold Summary.effectOn. rewrite Hget. reflexivity. }
  destruct (Loop.applyEffect_eq w newSession s st _ card history effect Hs Hst Heff)
    as [entry Hstep].
  assert (Hflag : Biomarker.isCritical b' = true ↔
            (Biomarker.currentValue b' < fst (Biomarker.criticalRange b'))%Q ∨
            (snd (Biomarker.criticalRange b') < Biomarker.currentValue b')%Q).
  { apply (isCritical_iff b). }
  eexists _, _, _, b, b'. split; [exact Hstep |].
  split; [apply lookup_insert_eq |].
  split; [exact Hget |].
  split; [apply get_set; eauto |].
  split; [reflexivity |]. split; [reflexivity |].
  split; [exact Hflag |].
  intros Hrange Hbound. apply not_true_iff_false. rewrite Hflag.
  intros [Hlow | Hhigh]; destruct Hbound as [Heq | Heq]; lra.
Qed.

(** Glucose at 90 with critical range [50, 140] and an effect of -40: the
    new reading is the low critical bound itself. *)
Lemma applyEffect_recomputes_isCritical_witness :
  ∃ history' w' st' b b',
    GameEngine.applyEffect 1%positive Demo.neutral []
      (Demo.effect "glucose" (-40 # 1))
      (Demo.world (Demo.session IN_PROGRESS 1 [] [] []) Demo.normalState)
    = Returns history' w' ∧
    store w' !! 2%positive = Some (StateObj st') ∧
    HomeostaticState.get "glucose" Demo.normalState = Some b ∧
    HomeostaticState.get "glucose" st' = Some b' ∧
    Biomarker.currentValue b' = (Biomarker.currentValue b + (-40 # 1))%Q ∧
    Biomarker.criticalRange b' = Biomarker.criticalRange b ∧
    (Biomarker.isCritical b' = true ↔
       (Biomarker.currentValue b' < fst (Biomarker.criticalRange b'))%Q ∨
       (snd (Biomarker.criticalRange b') < Biomarker.currentValue b')%Q) ∧
    ((fst (Biomarker.criticalRange b') <= snd (Biomarker.criticalRange b'))%Q →
     (Biomarker.currentValue b' == fst (Biomarker.criticalRange b'))%Q ∨
     (Biomarker.currentValue b' == snd (Biomarker.criticalRange b'))%Q →
     Biomarker.isCritical b' = false).
Proof.
  apply (applyEffect_recomputes_isCritical
           (Demo.world (Demo.session IN_PROGRESS 1 [] [] []) Demo.normalState)
           1%positive (Demo.session IN_PROGRESS 1 [] [] [])
           Demo.normalState Demo.neutral []
           (Demo.effect "glucose" (-40 # 1))).
  - reflexivity.
  - reflexivity.
  - left. reflexivity.
Defined.

(** ** The termination rule *)

Module Rule.
Import Summary.

Lemma criticalCount_flags (st : HomeostaticState.t) :
  criticalCount st =
    (Nat.b2n (Biomarker.isCritical (HomeostaticState.glucose st))
     + Nat.b2n (Biomarker.isCritical (HomeostaticState.ph st))
     + Nat.b2n (Biomarker.isCritical (HomeostaticState.temperature st)))%nat.
Proof.
  unfold criticalCount, HomeostaticState.values.
  destruct (Biomarker.isCritical (HomeostaticState.glucose st)) eqn:Hg,
           (Biomarker.isCritical (HomeostaticState.ph st)) eqn:Hp,
           (Biomarker.isCritical (HomeostaticState.temperature st)) eqn:Ht;
    rewrite !filter_cons, ?filter_nil;
    repeat case_decide; cbn; congruence.
Qed.

Lemma allStable_forallb (st : HomeostaticState.t) :
  forallb (λ b, negb (Biomarker.isCritical b) && GameEngine.withinNormal b)
          (HomeostaticState.values st) = true
  ↔ allStable st.
Proof.
  rewrite forallb_forall. unfold allStable.
  split; intros H b Hb.
  - apply list_elem_of_In, H in Hb.
    apply andb_true_iff in Hb as [Hc Hn].
    split; [by apply negb_true_iff | by apply Engine.withinNormal_iff].
  - apply list_elem_of_In, H in Hb as [Hc Hn].
    apply andb_true_iff. split; [by apply negb_true_iff | by apply Engine.withinNormal_iff].
Qed.

Lemma allStable_criticalCount (st : HomeostaticState.t) :
  allStable st → criticalCount st = 0%nat.
Proof.
  intros H. rewrite criticalCount_flags.
  destruct (H (HomeostaticState.glucose st)) as [-> _]; [set_solver |].
  destruct (H (HomeostaticState.ph st)) as [-> _]; [set_solver |].
  destruct (H (HomeostaticState.temperature st)) as [-> _]; [set_solver |].
  reflexivity.
Qed.

Lemma gameEnd_defeat_iff (st : HomeostaticState.t) (turnCount : Z) :
  gameEnd st turnCount = DEFEAT ↔ (2 ≤ criticalCount st)%nat.
Proof.
  unfold gameEnd.
  destruct (2 <=? Z.of_nat (criticalCount st)) eqn:Hc.
  - apply Z.leb_le in Hc. split; [lia | reflexivity].
  - apply Z.leb_gt in Hc.
    destruct (forallb _ _ && _); split; (discriminate || lia).
Qed.

Lemma gameEnd_victory_iff (st : HomeostaticState.t) (turnCount : Z) :
  gameEnd st turnCount = VICTORY ↔ allStable st ∧ 5 < turnCount.
Proof.
  unfold gameEnd.
  destruct (2 <=? Z.of_nat (criticalCount st)) eqn:Hc.
  - apply Z.leb_le in Hc. split; [discriminate |].
    intros [Hstable _]. apply allStable_criticalCount in Hstable. lia.
  - destruct (forallb _ _) eqn:Hall; cbn.
    + apply allStable_forallb in Hall.
      destruct (5 <? turnCount) eqn:Ht.
      * apply Z.ltb_lt in Ht. split; [by split | reflexivity].
      * apply Z.ltb_ge in Ht. split; [discriminate | lia].
    + split; [discriminate |].
      intros [Hstable _]. apply allStable_forallb in Hstable. congruence.
Qed.

(** A call of [processTurn] on a session with its state object, for a
    card that targets the three systems only: what it returns and what
    the store holds afterwards. *)
Lemma processTurn_returns (w : World) (session : loc) (s : GameSession.t)
    (st : HomeostaticState.t) (card : Card.t) :
  store w !! session = Some (SessionObj s) →
  store w !! GameSession.currentState s = Some (StateObj st) →
  validCard card →
  ∃ newSession history w' st',
    GameEngine.processTurn session card w = Returns (newSession, history) w' ∧
    effectsOn (clock w) (ticks w) (Card.effects card) st = Some st' ∧
    store w' !! newSession = Some (SessionObj (played card st' s)) ∧
    store w' !! GameSession.currentState s = Some (StateObj st') ∧
    store w' !! session = Some (SessionObj s) ∧
    newSession ≠ session.
Proof.
  intros Hs Hst Hvalid.
  destruct (Engine.processTurn_eq w session s st card Hs Hst Hvalid)
    as (st' & history & t' & Hrun & Heq).
  pose proof (fresh_unused w) as Hfresh.
  assert (Hne1 : fresh (dom (store w)) ≠ session) by (intros E; congruence).
  assert (Hne2 : fresh (dom (store w)) ≠ GameSession.currentState s)
    by (intros E; congruence).
  pose proof (session_state_apart w _ _ _ _ Hs Hst) as Hne3.
  eexists _, history, _, st'. split; [exact Heq |].
  split; [exact Hrun |]. cbn [store].
  split; [apply lookup_insert_eq |].
  split; [rewrite lookup_insert_ne by done; apply lookup_insert_eq |].
  split; [| exact Hne1].
  rewrite !lookup_insert_ne by done. exact Hs.
Qed.

End Rule.

(** C3. [processTurn] returns a session whose status is [DEFEAT] exactly
    when at least two of the three biomarkers are flagged critical once the
    card's effects are applied, whatever the turn count and whether or not
    the victory conditions hold; with glucose and pH critical the status is
    [DEFEAT]. *)
Theorem processTurn_defeat_iff (w : World) (session : loc) (s : GameSession.t)
    (st : HomeostaticState.t) (card : Card.t) :
  store w !! session = Some (SessionObj s) →
  store w !! GameSession.currentState s = Some (StateObj st) →
  Summary.validCard card →
  ∃ newSession history w' s' st',
    GameEngine.processTurn session card w = Returns (newSession, history) w' ∧
    store w' !! newSession = Some (SessionObj s') ∧
    store w' !! GameSession.currentState s' = Some (StateObj st') ∧
    Summary.effectsOn (clock w) (ticks w) (Card.effects card) st = Some st' ∧
    (GameSession.status s' = DEFEAT ↔ (2 ≤ Summary.criticalCount st')%nat) ∧
    ((2 ≤ Summary.criticalCount st')%nat → GameSession.status s' ≠ VICTORY) ∧
    (Biomarker.isCritical (HomeostaticState.glucose st') = true →
     Biomarker.isCritical (HomeostaticState.ph st') = true →
     GameSession.status s' = DEFEAT).
Proof.
  intros Hs Hst Hvalid.
  destruct (Rule.processTurn_returns w session s st card Hs Hst Hvalid)
    as (newSession & history & w' & st' & Hcall & Hrun & Hnew & Hstate & _).
  exists newSession, history, w', (Summary.played card st' s), st'.
  split; [exact Hcall |]. split; [exact Hnew |]. split; [exact Hstate |].
  split; [exact Hrun |].
  assert (Hiff : GameSession.status (Summary.played card st' s) = DEFEAT
                 ↔ (2 ≤ Summary.criticalCount st')%nat)
    by apply Rule.gameEnd_defeat_iff.
  split; [exact Hiff |]. split.
  - intros Hc. apply Hiff in Hc. congruence.
  - intros Hg Hp. apply Hiff. rewrite Rule.criticalCount_flags, Hg, Hp. cbn. lia.
Qed.

(** Scenario D: a card that drives glucose and pH out of their critical
    ranges. *)
Lemma processTurn_defeat_iff_witness :
  ∃ newSession history w' s' st',
    GameEngine.processTurn 1%positive
      (Demo.card "crash" [Demo.effect "glucose" (-50 # 1);
                             Demo.effect "ph" (-3 # 10)])
      (Demo.world (Demo.session IN_PROGRESS 9 [] [] []) Demo.normalState)
    = Returns (newSession, history) w' ∧
    store w' !! newSession = Some (SessionObj s') ∧
    store w' !! GameSession.currentState s' = Some (StateObj st') ∧
    Summary.effectsOn (λ n, Z.of_nat n) 0
      [Demo.effect "glucose" (-50 # 1); Demo.effect "ph" (-3 # 10)]
      Demo.normalState = Some st' ∧
    (GameSession.status s' = DEFEAT ↔ (2 ≤ Summary.criticalCount st')%nat) ∧
    ((2 ≤ Summary.criticalCount st')%nat → GameSession.status s' ≠ VICTORY) ∧
    (Biomarker.isCritical (HomeostaticState.glucose st') = true →
     Biomarker.isCritical (HomeostaticState.ph st') = true →
     GameSession.status s' = DEFEAT).
Proof.
  apply (processTurn_defeat_iff
           (Demo.world (Demo.session IN_PROGRESS 9 [] [] []) Demo.normalState)
           1%positive (Demo.session IN_PROGRESS 9 [] [] [])
           Demo.normalState
           (Demo.card "crash" [Demo.effect "glucose" (-50 # 1);
                                  Demo.effect "ph" (-3 # 10)])).
  - reflexivity.
  - reflexivity.
  - constructor; [left; reflexivity |].
    constructor; [right; left; reflexivity |].
    constructor.
Defined.

Lemma gameEnd_in_progress (st : HomeostaticState.t) (turnCount : Z) :
  Summary.allStable st → turnCount <= 5 →
  Summary.gameEnd st turnCount = IN_PROGRESS.
Proof.
  intros Hstable Hturn.
  pose proof (Rule.gameEnd_defeat_iff st turnCount) as Hd.
  pose proof (Rule.gameEnd_victory_iff st turnCount) as Hv.
  pose proof (Rule.allStable_criticalCount st Hstable) as Hc.
  assert (Hcases : Summary.gameEnd st turnCount = DEFEAT ∨
                   Summary.gameEnd st turnCount = VICTORY ∨
                   Summary.gameEnd st turnCount = IN_PROGRESS).
  { unfold Summary.gameEnd. destruct (2 <=? _); [by left |].
    destruct (forallb _ _ && _); [right; by left | right; by right]. }
  destruct Hcases as [H | [H | H]]; [| | exact H].
  - apply Hd in H. lia.
  - apply Hv in H as [_ H]. lia.
Qed.

Lemma normalState_allStable : Summary.allStable Demo.normalState.
Proof.
  intros b Hb. unfold Demo.normalState, HomeostaticState.values in Hb. cbn in Hb.
  unfold Summary.inNormalRange.
  apply elem_of_cons in Hb as [-> | Hb]; [cbn; repeat split; lra |].
  apply elem_of_cons in Hb as [-> | Hb]; [cbn; repeat split; lra |].
  apply list_elem_of_singleton in Hb as ->. cbn; repeat split; lra.
Qed.

(** ** Victory *)

(** C1, as the specification states it, fails: with all three biomarkers
    within their normal range and turn count 5, playing a card without
    effects returns turn count 6 and status [IN_PROGRESS], not [VICTORY]:
    the status is computed before the turn count is incremented. *)
Lemma victory_scenario_C_in_progress :
  Summary.allStable Demo.normalState ∧
  ∃ newSession history w' s',
    GameEngine.processTurn 1%positive Demo.neutral
      (Demo.world (Demo.session IN_PROGRESS 5 [Demo.neutral] [] [])
                     Demo.normalState)
    = Returns (newSession, history) w' ∧
    store w' !! newSession = Some (SessionObj s') ∧
    store w' !! GameSession.currentState s' = Some (StateObj Demo.normalState) ∧
    GameSession.turnCount s' = 6 ∧
    GameSession.status s' = IN_PROGRESS ∧
    GameSession.status s' ≠ VICTORY.
Proof.
  split; [exact normalState_allStable |].
  eexists _, _, _, _. split; [vm_compute; reflexivity |].
  split; [vm_compute; reflexivity |].
  split; [vm_compute; reflexivity |].
  split; [reflexivity |]. split; [reflexivity | discriminate].
Qed.

(** C1, amended.  [processTurn] increments the turn count by one and sets
    the status to [VICTORY] exactly when, once the card's effects are
    applied, all three biomarkers are flagged non-critical and read within
    their normal range (bounds included) and the turn count before the call
    is greater than 5.  With all three stable, a turn count of 5 before the
    call gives turn count 6 and [IN_PROGRESS]; a turn count of 6 gives turn
    count 7 and [VICTORY]. *)
Theorem processTurn_victory_iff (w : World) (session : loc) (s : GameSession.t)
    (st : HomeostaticState.t) (card : Card.t) :
  store w !! session = Some (SessionObj s) →
  store w !! GameSession.currentState s = Some (StateObj st) →
  Summary.validCard card →
  ∃ newSession history w' s' st',
    GameEngine.processTurn session card w = Returns (newSession, history) w' ∧
    store w' !! newSession = Some (SessionObj s') ∧
    store w' !! GameSession.currentState s' = Some (StateObj st') ∧
    Summary.effectsOn (clock w) (ticks w) (Card.effects card) st = Some st' ∧
    GameSession.turnCount s' = GameSession.turnCount s + 1 ∧
    (GameSession.status s' = VICTORY ↔
       Summary.allStable st' ∧ 5 < GameSession.turnCount s) ∧
    (Summary.allStable st' → GameSession.turnCount s = 5 →
       GameSession.turnCount s' = 6 ∧ GameSession.status s' = IN_PROGRESS) ∧
    (Summary.allStable st' → GameSession.turnCount s = 6 →
       GameSession.turnCount s' = 7 ∧ GameSession.status s' = VICTORY).
Proof.
  intros Hs Hst Hvalid.
  destruct (Rule.processTurn_returns w session s st card Hs Hst Hvalid)
    as (newSession & history & w' & st' & Hcall & Hrun & Hnew & Hstate & _).
  exists newSession, history, w', (Summary.played card st' s), st'.
  split; [exact Hcall |]. split; [exact Hnew |]. split; [exact Hstate |].
  split; [exact Hrun |]. split; [reflexivity |].
  assert (Hiff : GameSession.status (Summary.played card st' s) = VICTORY
                 ↔ Summary.allStable st' ∧ 5 < GameSession.turnCount s)
    by apply Rule.gameEnd_victory_iff.
  split; [exact Hiff |]. cbn [Summary.played GameSession.turnCount GameSession.status].
  split; intros Hstable Hturn.
  - split; [lia |]. apply gameEnd_in_progress; [exact Hstable | lia].
  - split; [lia |]. apply Rule.gameEnd_victory_iff. split; [exact Hstable | lia].
Qed.

Lemma processTurn_victory_iff_witness :
  ∃ newSession history w' s' st',
    GameEngine.processTurn 1%positive Demo.neutral
      (Demo.world (Demo.session IN_PROGRESS 6 [Demo.neutral] [] [])
                     Demo.normalState)
    = Returns (newSession, history) w' ∧
    store w' !! newSession = Some (SessionObj s') ∧
    store w' !! GameSession.currentState s' = Some (StateObj st') ∧
    Summary.effectsOn (λ n, Z.of_nat n) 0 [] Demo.normalState = Some st' ∧
    GameSession.turnCount s' = 6 + 1 ∧
    (GameSession.status s' = VICTORY ↔ Summary.allStable st' ∧ 5 < 6) ∧
    (Summary.allStable st' → 6 = 5 →
       GameSession.turnCount s' = 6 ∧ GameSession.status s' = IN_PROGRESS) ∧
    (Summary.allStable st' → 6 = 6 →
       GameSession.turnCount s' = 7 ∧ GameSession.status s' = VICTORY).
Proof.
  apply (processTurn_victory_iff
           (Demo.world (Demo.session IN_PROGRESS 6 [Demo.neutral] [] [])
                          Demo.normalState)
           1%positive (Demo.session IN_PROGRESS 6 [Demo.neutral] [] [])
           Demo.normalState Demo.neutral).
  - reflexivity.
  - reflexivity.
  - constructor.
Defined.

(** ** When the termination rule runs *)

(** C4, as the specification states it, fails.  The card [swing] leaves
    glucose and pH critical after its second effect (played alone, these two
    effects end in [DEFEAT]) and brings both back with its last two; the
    turn ends [IN_PROGRESS]. *)
Lemma swing_card_not_defeat :
  (∃ st2,
     Summary.effectsOn (λ n, Z.of_nat n) 0
       (take 2 (Card.effects Demo.swing)) Demo.normalState = Some st2 ∧
     Summary.criticalCount st2 = 2%nat) ∧
  Demo.statusOf
    (GameEngine.processTurn 1%positive
       (Demo.card "swing" (take 2 (Card.effects Demo.swing)))
       (Demo.world (Demo.session IN_PROGRESS 1 [Demo.swing] [] [])
                      Demo.normalState))
  = Some DEFEAT ∧
  Demo.statusOf
    (GameEngine.processTurn 1%positive Demo.swing
       (Demo.world (Demo.session IN_PROGRESS 1 [Demo.swing] [] [])
                      Demo.normalState))
  = Some IN_PROGRESS.
Proof.
  split; [| split]; [| vm_compute; reflexivity ..].
  eexists. split; vm_compute; reflexivity.
Qed.

(** C4, amended.  [processTurn] evaluates the termination rule once, after
    the last effect of the card: the status it returns is the rule's
    verdict on the biomarkers as the whole effect list left them and on the
    turn count before the call, whatever the status of the input session.
    It is [DEFEAT] exactly when at least two biomarkers are critical then;
    a card that has two biomarkers critical after some of its effects and
    fewer than two after all of them does not end in [DEFEAT]. *)
Theorem processTurn_checks_after_last_effect (w : World) (session : loc)
    (s : GameSession.t) (st : HomeostaticState.t) (card : Card.t) :
  store w !! session = Some (SessionObj s) →
  store w !! GameSession.currentState s = Some (StateObj st) →
  Summary.validCard card →
  ∃ newSession history w' s' st',
    GameEngine.processTurn session card w = Returns (newSession, history) w' ∧
    store w' !! newSession = Some (SessionObj s') ∧
    store w' !! GameSession.currentState s' = Some (StateObj st') ∧
    Summary.effectsOn (clock w) (ticks w) (Card.effects card) st = Some st' ∧
    GameSession.status s' = Summary.gameEnd st' (GameSession.turnCount s) ∧
    (GameSession.status s' = DEFEAT ↔ (2 ≤ Summary.criticalCount st')%nat) ∧
    (∀ (k : nat) (st_k : HomeostaticState.t),
       Summary.effectsOn (clock w) (ticks w) (take k (Card.effects card)) st
       = Some st_k →
       (2 ≤ Summary.criticalCount st_k)%nat →
       (Summary.criticalCount st' < 2)%nat →
       GameSession.status s' ≠ DEFEAT).
Proof.
  intros Hs Hst Hvalid.
  destruct (Rule.processTurn_returns w session s st card Hs Hst Hvalid)
    as (newSession & history & w' & st' & Hcall & Hrun & Hnew & Hstate & _).
  exists newSession, history, w', (Summary.played card st' s), st'.
  split; [exact Hcall |]. split; [exact Hnew |]. split; [exact Hstate |].
  split; [exact Hrun |]. split; [reflexivity |].
  assert (Hiff : GameSession.status (Summary.played card st' s) = DEFEAT
                 ↔ (2 ≤ Summary.criticalCount st')%nat)
    by apply Rule.gameEnd_defeat_iff.
  split; [exact Hiff |].
  intros k st_k _ _ Hfew Hdefeat. apply Hiff in Hdefeat. lia.
Qed.

Lemma processTurn_checks_after_last_effect_witness :
  ∃ newSession history w' s' st',
    GameEngine.processTurn 1%positive Demo.swing
      (Demo.world (Demo.session DEFEAT 1 [Demo.swing] [] [])
                     Demo.normalState)
    = Returns (newSession, history) w' ∧
    store w' !! newSession = Some (SessionObj s') ∧
    store w' !! GameSession.currentState s' = Some (StateObj st') ∧
    Summary.effectsOn (λ n, Z.of_nat n) 0 (Card.effects Demo.swing)
      Demo.normalState = Some st' ∧
    GameSession.status s' = Summary.gameEnd st' 1 ∧
    (GameSession.status s' = DEFEAT ↔ (2 ≤ Summary.criticalCount st')%nat) ∧
    (∀ (k : nat) (st_k : HomeostaticState.t),
       Summary.effectsOn (λ n, Z.of_nat n) 0 (take k (Card.effects Demo.swing))
         Demo.normalState = Some st_k →
       (2 ≤ Summary.criticalCount st_k)%nat →
       (Summary.criticalCount st' < 2)%nat →
       GameSession.status s' ≠ DEFEAT).
Proof.
  apply (processTurn_checks_after_last_effect
           (Demo.world (Demo.session DEFEAT 1 [Demo.swing] [] [])
                          Demo.normalState)
           1%positive (Demo.session DEFEAT 1 [Demo.swing] [] [])
           Demo.normalState Demo.swing).
  - reflexivity.
  - reflexivity.
  - constructor; [left; reflexivity |].
    constructor; [right; left; reflexivity |].
    constructor; [left; reflexivity |].
    constructor; [right; left; reflexivity |].
    constructor.
Defined.

(** ** Copy on write *)

(** C2 fails on the code.  [processTurn] copies the session object only:
    the copy refers to the state object of the input session, and the
    effects are written to that object.  After playing [cardX] (glucose
    -10) on a session with glucose at 90, the input session object has the
    fields it had, the session returned refers to the same state object as
    the input (address 2), and that object now reads glucose 80. *)
Theorem processTurn_writes_input_state :
  ∃ newSession history w' s' st',
    GameEngine.processTurn 1%positive Demo.cardX
      (Demo.world (Demo.session IN_PROGRESS 1 [Demo.cardX] [] [])
                     Demo.normalState)
    = Returns (newSession, history) w' ∧
    store (Demo.world (Demo.session IN_PROGRESS 1 [Demo.cardX] [] [])
                         Demo.normalState) !! 2%positive
    = Some (StateObj Demo.normalState) ∧
    store w' !! 1%positive
    = Some (SessionObj (Demo.session IN_PROGRESS 1 [Demo.cardX] [] [])) ∧
    store w' !! newSession = Some (SessionObj s') ∧
    newSession ≠ 1%positive ∧
    GameSession.currentState s' = 2%positive ∧
    store w' !! 2%positive = Some (StateObj st') ∧
    Biomarker.currentValue (HomeostaticState.glucose Demo.normalState) = 90 # 1 ∧
    Biomarker.currentValue (HomeostaticState.glucose st') = 80 # 1 ∧
    st' ≠ Demo.normalState.
Proof.
  eexists _, _, _, _, _. split; [vm_compute; reflexivity |].
  split; [reflexivity |].
  split; [vm_compute; reflexivity |].
  split; [vm_compute; reflexivity |].
  split; [discriminate |].
  split; [reflexivity |].
  split; [vm_compute; reflexivity |].
  split; [reflexivity |]. split; [reflexivity |].
  intros E. discriminate E.
Qed.

(** ** The card economy *)

Module Piles.
Import Summary.

Lemma copies_split (cardId : string) (pile : list Card.t) :
  (length (filter (λ card, Card.id card ≠ cardId) pile) + copies cardId pile
   = length pile)%nat.
Proof.
  unfold copies. induction pile as [| card pile IH]; [reflexivity |].
  rewrite !filter_cons.
  destruct (decide (Card.id card = cardId)) as [E | E];
    destruct (decide (Card.id card ≠ cardId)) as [E' | E'];
    cbn; try lia; contradiction.
Qed.

Lemma copies_removed (cardId : string) (pile : list Card.t) :
  copies cardId (filter (λ card, Card.id card ≠ cardId) pile) = 0%nat.
Proof.
  unfold copies.
  destruct (filter (λ card, Card.id card = cardId) _) as [| card rest] eqn:E;
    [reflexivity | exfalso].
  assert (Hin : card ∈ filter (λ card, Card.id card = cardId)
                  (filter (λ card, Card.id card ≠ cardId) pile))
    by (rewrite E; left).
  apply list_elem_of_filter in Hin as [Hid Hin].
  apply list_elem_of_filter in Hin as [Hne _]. contradiction.
Qed.

Lemma filter_keeps_all {A} (P : A → Prop) `{∀ x, Decision (P x)} (l : list A) :
  (∀ x, x ∈ l → P x) → filter P l = l.
Proof.
  induction l as [| a l IH]; intros Hall; [reflexivity |].
  rewrite filter_cons. destruct (decide (P a)) as [_ | Hn].
  - f_equal. apply IH. intros x Hx. apply Hall. by right.
  - exfalso. apply Hn, Hall. left.
Qed.

(** In a hand of cards with distinct ids, removing by id removes the
    played card and nothing else. *)
Lemma hand_without_played (playedCard : Card.t) (hand : list Card.t) :
  NoDup (Card.id <$> hand) → playedCard ∈ hand →
  hand ≡ₚ playedCard :: filter (λ card, Card.id card ≠ Card.id playedCard) hand.
Proof.
  induction hand as [| card hand IH]; intros Hnodup Hin.
  - by apply elem_of_nil in Hin.
  - rewrite fmap_cons in Hnodup. apply NoDup_cons in Hnodup as [Hfresh Hnodup].
    rewrite filter_cons. apply elem_of_cons in Hin as [<- | Hin].
    + destruct (decide (Card.id playedCard ≠ Card.id playedCard)); [done |].
      rewrite filter_keeps_all; [reflexivity |].
      intros x Hx E. apply Hfresh. rewrite <- E. by apply list_elem_of_fmap_2.
    + destruct (decide (Card.id card ≠ Card.id playedCard)) as [_ | E].
      * rewrite (IH Hnodup Hin) at 1. apply Permutation_swap.
      * exfalso. apply Hfresh. apply dec_stable in E. rewrite E.
        by apply list_elem_of_fmap_2.
Qed.

(** Drawing moves cards between the piles and keeps them all. *)
Lemma drawn_piles (s : GameSession.t) :
  GameSession.piles (drawn s) ≡ₚ GameSession.piles s.
Proof.
  destruct s as [? ? ? ? hand deck discardPile ? ? ? ? ? ?].
  unfold drawn, reshuffled, GameSession.piles.
  destruct deck as [| top deck]; [destruct discardPile as [| top discardPile] |];
    cbn.
  - reflexivity.
  - rewrite !app_nil_r, <- app_assoc. apply Permutation_app_head.
    cbn. reflexivity.
  - rewrite <- app_assoc. apply Permutation_app_head. cbn. reflexivity.
Qed.

End Piles.

(** C10.  When the hand holds two or more cards with the id of the played
    card, [processTurn] removes every one of them from the hand and appends
    the played card once to the discard pile, leaving the deck alone: the
    three piles together lose as many cards as there were copies beyond the
    first. *)
Theorem processTurn_removes_every_copy (w : World) (session : loc)
    (s : GameSession.t) (st : HomeostaticState.t) (card : Card.t) :
  store w !! session = Some (SessionObj s) →
  store w !! GameSession.currentState s = Some (StateObj st) →
  Summary.validCard card →
  (2 ≤ Summary.copies (Card.id card) (GameSession.hand s))%nat →
  ∃ newSession history w' s',
    GameEngine.processTurn session card w = Returns (newSession, history) w' ∧
    store w' !! newSession = Some (SessionObj s') ∧
    GameSession.hand s' =
      filter (λ c, Card.id c ≠ Card.id card) (GameSession.hand s) ∧
    Summary.copies (Card.id card) (GameSession.hand s') = 0%nat ∧
    GameSession.discardPile s' = GameSession.discardPile s ++ [card] ∧
    GameSession.deck s' = GameSession.deck s ∧
    length (GameSession.piles s') =
      (length (GameSession.piles s)
       - (Summary.copies (Card.id card) (GameSession.hand s) - 1))%nat ∧
    (length (GameSession.piles s') < length (GameSession.piles s))%nat.
Proof.
  intros Hs Hst Hvalid Hcopies.
  destruct (Rule.processTurn_returns w session s st card Hs Hst Hvalid)
    as (newSession & history & w' & st' & Hcall & _ & Hnew & _).
  exists newSession, history, w', (Summary.played card st' s).
  split; [exact Hcall |]. split; [exact Hnew |].
  split; [reflexivity |].
  split; [apply Piles.copies_removed |].
  split; [reflexivity |]. split; [reflexivity |].
  pose proof (Piles.copies_split (Card.id card) (GameSession.hand s)) as Hsplit.
  unfold GameSession.piles. cbn [Summary.played GameSession.hand GameSession.deck
                                 GameSession.discardPile].
  rewrite !length_app. cbn [length]. lia.
Qed.

(** A hand with two cards of id "card-x". *)
Lemma processTurn_removes_every_copy_witness :
  ∃ newSession history w' s',
    GameEngine.processTurn 1%positive Demo.cardX
      (Demo.world
         (Demo.session IN_PROGRESS 1
            [Demo.cardX; Demo.cardY; Demo.cardX] [] [])
         Demo.normalState)
    = Returns (newSession, history) w' ∧
    store w' !! newSession = Some (SessionObj s') ∧
    GameSession.hand s' =
      filter (λ c, Card.id c ≠ Card.id Demo.cardX)
        [Demo.cardX; Demo.cardY; Demo.cardX] ∧
    Summary.copies (Card.id Demo.cardX) (GameSession.hand s') = 0%nat ∧
    GameSession.discardPile s' = [] ++ [Demo.cardX] ∧
    GameSession.deck s' = [] ∧
    length (GameSession.piles s') =
      (3 - (Summary.copies (Card.id Demo.cardX)
              [Demo.cardX; Demo.cardY; Demo.cardX] - 1))%nat ∧
    (length (GameSession.piles s') < 3)%nat.
Proof.
  apply (processTurn_removes_every_copy
           (Demo.world
              (Demo.session IN_PROGRESS 1
                 [Demo.cardX; Demo.cardY; Demo.cardX] [] [])
              Demo.normalState)
           1%positive
           (Demo.session IN_PROGRESS 1
              [Demo.cardX; Demo.cardY; Demo.cardX] [] [])
           Demo.normalState Demo.cardX).
  - reflexivity.
  - reflexivity.
  - constructor; [left; reflexivity | constructor].
  - vm_compute. lia.
Defined.

(** C8, as the specification states it, fails: playing a card that is not
    in the hand leaves the hand as it is and appends the card to the discard
    pile, so the three piles gain a card. *)
Lemma card_not_in_hand_is_added :
  ∃ newSession history w' s',
    GameEngine.processTurn 1%positive Demo.cardY
      (Demo.world (Demo.session IN_PROGRESS 1 [Demo.cardX] [] [])
                     Demo.normalState)
    = Returns (newSession, history) w' ∧
    store w' !! newSession = Some (SessionObj s') ∧
    GameSession.piles (Demo.session IN_PROGRESS 1 [Demo.cardX] [] [])
    = [Demo.cardX] ∧
    GameSession.piles s' = [Demo.cardX; Demo.cardY] ∧
    ¬ (GameSession.piles s'
       ≡ₚ GameSession.piles (Demo.session IN_PROGRESS 1 [Demo.cardX] [] [])).
Proof.
  eexists _, _, _, _. split; [vm_compute; reflexivity |].
  split; [vm_compute; reflexivity |].
  split; [reflexivity |]. split; [reflexivity |].
  intros Hperm. apply Permutation_length in Hperm. discriminate Hperm.
Qed.

(** C8, amended.  [drawCard] always returns a session whose three piles
    hold the cards of the input's three piles.  [processTurn] does so when
    the cards of the input's piles have pairwise distinct ids (the piles are
    then disjoint) and the played card is in the hand; the ids of the
    returned piles are then pairwise distinct again. *)
Theorem card_economy (w : World) (session : loc) (s : GameSession.t)
    (st : HomeostaticState.t) (card : Card.t) :
  store w !! session = Some (SessionObj s) →
  store w !! GameSession.currentState s = Some (StateObj st) →
  Summary.validCard card →
  (∃ newSession drawnCard w' s',
     GameEngine.drawCard session w = Returns (newSession, drawnCard) w' ∧
     store w' !! newSession = Some (SessionObj s') ∧
     GameSession.piles s' ≡ₚ GameSession.piles s) ∧
  (NoDup (Card.id <$> GameSession.piles s) →
   card ∈ GameSession.hand s →
   ∃ newSession history w' s',
     GameEngine.processTurn session card w = Returns (newSession, history) w' ∧
     store w' !! newSession = Some (SessionObj s') ∧
     GameSession.piles s' ≡ₚ GameSession.piles s ∧
     NoDup (Card.id <$> GameSession.piles s')).
Proof.
  intros Hs Hst Hvalid. split.
  - eexists _, _, _, (Summary.drawn s).
    split; [apply (Engine.drawCard_eq w session s Hs) |].
    split; [apply lookup_insert_eq |].
    apply Piles.drawn_piles.
  - intros Hnodup Hin.
    destruct (Rule.processTurn_returns w session s st card Hs Hst Hvalid)
      as (newSession & history & w' & st' & Hcall & _ & Hnew & _).
    assert (Hperm : GameSession.piles (Summary.played card st' s)
                    ≡ₚ GameSession.piles s).
    { unfold GameSession.piles in *.
      cbn [Summary.played GameSession.hand GameSession.deck GameSession.discardPile].
      rewrite fmap_app in Hnodup. apply NoDup_app in Hnodup as (Hhand & _ & _).
      rewrite (Piles.hand_without_played card (GameSession.hand s) Hhand Hin) at 2.
      rewrite !app_assoc. rewrite <- Permutation_cons_append. reflexivity. }
    exists newSession, history, w', (Summary.played card st' s).
    split; [exact Hcall |]. split; [exact Hnew |]. split; [exact Hperm |].
    by rewrite Hperm.
Qed.

Lemma card_economy_witness :
  (∃ newSession drawnCard w' s',
     GameEngine.drawCard 1%positive
       (Demo.world (Demo.session IN_PROGRESS 1 [Demo.cardX] []
                                       [Demo.cardY])
                      Demo.normalState)
     = Returns (newSession, drawnCard) w' ∧
     store w' !! newSession = Some (SessionObj s') ∧
     GameSession.piles s' ≡ₚ [Demo.cardX; Demo.cardY]) ∧
  (∃ newSession history w' s',
     GameEngine.processTurn 1%positive Demo.cardX
       (Demo.world (Demo.session IN_PROGRESS 1 [Demo.cardX] []
                                       [Demo.cardY])
                      Demo.normalState)
     = Returns (newSession, history) w' ∧
     store w' !! newSession = Some (SessionObj s') ∧
     GameSession.piles s' ≡ₚ [Demo.cardX; Demo.cardY] ∧
     NoDup (Card.id <$> GameSession.piles s')).
Proof.
  destruct (card_economy
              (Demo.world (Demo.session IN_PROGRESS 1 [Demo.cardX] []
                                              [Demo.cardY])
                             Demo.normalState)
              1%positive
              (Demo.session IN_PROGRESS 1 [Demo.cardX] [] [Demo.cardY])
              Demo.normalState Demo.cardX)
    as [Hdraw Hplay].
  - reflexivity.
  - reflexivity.
  - constructor; [left; reflexivity | constructor].
  - split; [exact Hdraw |]. apply Hplay.
    + apply NoDup_cons. split; [| apply NoDup_singleton].
      intros Hin. apply list_elem_of_singleton in Hin. discriminate Hin.
    + left.
Defined.


(** * Part four: more of the engine and of its callers *)

(** ** The effect loop, exactly *)

Module Trace.
Import GameEngine Summary Detail.

Lemma get_is_Some_valid (effect : CardEffect.t) (st : HomeostaticState.t) :
  is_Some (HomeostaticState.get (CardEffect.targetSystem effect) st) →
  validTarget effect.
Proof.
  unfold HomeostaticState.get, validTarget.
  destruct (String.eqb_spec (CardEffect.targetSystem effect) "glucose");
    [by left |].
  destruct (String.eqb_spec (CardEffect.targetSystem effect) "ph");
    [right; by left |].
  destruct (String.eqb_spec (CardEffect.targetSystem effect) "temperature");
    [right; by right |].
  by intros [? ?].
Qed.

Lemma get_invalid (effect : CardEffect.t) (st : HomeostaticState.t) :
  ¬ validTarget effect →
  HomeostaticState.get (CardEffect.targetSystem effect) st = None.
Proof.
  intros Hbad.
  destruct (HomeostaticState.get _ st) eqn:E; [| reflexivity].
  exfalso. apply Hbad, (get_is_Some_valid effect st). rewrite E. eauto.
Qed.

Lemma applyEffect_exact (w : World) (l : loc) (s : GameSession.t)
    (st : HomeostaticState.t) (b : Biomarker.t) (card : Card.t)
    (history : list BiomarkerHistory.t) (effect : CardEffect.t) :
  store w !! l = Some (SessionObj s) →
  store w !! GameSession.currentState s = Some (StateObj st) →
  HomeostaticState.get (CardEffect.targetSystem effect) st = Some b →
  applyEffect l card history effect w =
    Returns (history ++ [entryOf (Card.name card) (clock w (S (ticks w))) effect b])
      (mkWorld (<[GameSession.currentState s :=
                   StateObj (HomeostaticState.set (CardEffect.targetSystem effect)
                               (updated b (CardEffect.value effect) (clock w (ticks w)))
                               st)]> (store w))
               (clock w) (S (S (ticks w)))).
Proof.
  intros Hs Hst Hget.
  unfold applyEffect, currentBiomarker, setCurrentBiomarker.
  unfold mbind, M_bind, mret, M_ret, newDate, putObject, getSession, getState.
  repeat (cbn [store clock ticks]; rewrite ?Hs, ?Hst, ?Hget).
  reflexivity.
Qed.

Lemma applyEffect_throws (w : World) (l : loc) (s : GameSession.t)
    (st : HomeostaticState.t) (card : Card.t)
    (history : list BiomarkerHistory.t) (effect : CardEffect.t) :
  store w !! l = Some (SessionObj s) →
  store w !! GameSession.currentState s = Some (StateObj st) →
  ¬ validTarget effect →
  applyEffect l card history effect w = Throws TypeError w.
Proof.
  intros Hs Hst Hbad. pose proof (get_invalid effect st Hbad) as Hget.
  unfold applyEffect, currentBiomarker.
  unfold mbind, M_bind, mret, M_ret, getSession, getState, throw.
  repeat (cbn [store clock ticks]; rewrite ?Hs, ?Hst, ?Hget).
  reflexivity.
Qed.

(** The loop returns the records of [historyOn] and leaves the state object
    as [effectsOn] says, two clock readings per effect later. *)
Lemma foldM_applyEffect_exact (card : Card.t) (l : loc) (s : GameSession.t)
    (effects : list CardEffect.t) :
  ∀ (w : World) (st st' : HomeostaticState.t) (history : list BiomarkerHistory.t),
    store w !! l = Some (SessionObj s) →
    store w !! GameSession.currentState s = Some (StateObj st) →
    effectsOn (clock w) (ticks w) effects st = Some st' →
    foldM (applyEffect l card) effects history w =
      Returns (history ++ historyOn (clock w) (ticks w) (Card.name card) effects st)
        (mkWorld (<[GameSession.currentState s := StateObj st']> (store w))
                 (clock w) (ticks w + 2 * length effects)).
Proof.
  induction effects as [| effect rest IH]; intros w st st' history Hs Hst Hrun.
  - cbn in Hrun. injection Hrun as <-. cbn.
    rewrite insert_id by done. rewrite app_nil_r, Nat.add_0_r. by destruct w.
  - cbn in Hrun. unfold effectOn in Hrun.
    destruct (HomeostaticState.get _ st) as [b |] eqn:Hget; [| discriminate].
    pose proof (session_state_apart _ _ _ _ _ Hs Hst) as Hne.
    cbn [foldM historyOn]. rewrite Hget.
    run (applyEffect_exact w l s st b card history effect Hs Hst Hget).
    erewrite IH; cbn [store clock ticks].
    + rewrite insert_insert_eq, <- app_assoc. cbn [app length].
      do 2 f_equal. lia.
    + rewrite lookup_insert_ne by done. exact Hs.
    + apply lookup_insert_eq.
    + exact Hrun.
Qed.

(** The loop stops at the first effect whose target is not a system, with
    the effects before it already written. *)
Lemma foldM_applyEffect_throws (card : Card.t) (l : loc) (s : GameSession.t)
    (bad : CardEffect.t) (post : list CardEffect.t) (pre : list CardEffect.t) :
  ∀ (w : World) (st st1 : HomeostaticState.t) (history : list BiomarkerHistory.t),
    store w !! l = Some (SessionObj s) →
    store w !! GameSession.currentState s = Some (StateObj st) →
    effectsOn (clock w) (ticks w) pre st = Some st1 →
    ¬ validTarget bad →
    foldM (applyEffect l card) (pre ++ bad :: post) history w =
      Throws TypeError
        (mkWorld (<[GameSession.currentState s := StateObj st1]> (store w))
                 (clock w) (ticks w + 2 * length pre)).
Proof.
  induction pre as [| effect rest IH]; intros w st st1 history Hs Hst Hrun Hbad.
  - cbn in Hrun. injection Hrun as <-. cbn [app foldM].
    rewrite bind_run, (applyEffect_throws w l s st card history bad Hs Hst Hbad).
    rewrite insert_id by done. cbn. rewrite Nat.add_0_r. by destruct w.
  - cbn in Hrun. unfold effectOn in Hrun.
    destruct (HomeostaticState.get _ st) as [b |] eqn:Hget; [| discriminate].
    pose proof (session_state_apart _ _ _ _ _ Hs Hst) as Hne.
    cbn [app foldM].
    run (applyEffect_exact w l s st b card history effect Hs Hst Hget).
    erewrite IH; cbn [store clock ticks].
    + rewrite insert_insert_eq. cbn [length]. do 2 f_equal. lia.
    + rewrite lookup_insert_ne by done. exact Hs.
    + apply lookup_insert_eq.
    + exact Hrun.
    + exact Hbad.
Qed.

(** A list of effects is valid throughout, or splits at its first effect
    with an unknown target. *)
Lemma first_invalid (effects : list CardEffect.t) :
  Forall validTarget effects ∨
  ∃ pre bad post, effects = pre ++ bad :: post ∧
                  Forall validTarget pre ∧ ¬ validTarget bad.
Proof.
  induction effects as [| effect rest IH]; [left; constructor |].
  destruct (decide (validTarget effect)) as [Hv | Hbad].
  - destruct IH as [Hall | (pre & bad & post & -> & Hpre & Hbad)].
    + left. by constructor.
    + right. exists (effect :: pre), bad, post. repeat split; [by constructor | done].
  - right. exists [], effect, rest. repeat split; [constructor | done].
Qed.

(** [processTurn] with the history it returns and the clock it leaves. *)
Lemma processTurn_exact (w : World) (session : loc) (s : GameSession.t)
    (st st' : HomeostaticState.t) (card : Card.t) :
  store w !! session = Some (SessionObj s) →
  store w !! GameSession.currentState s = Some (StateObj st) →
  effectsOn (clock w) (ticks w) (Card.effects card) st = Some st' →
  processTurn session card w =
    Returns (fresh (dom (store w)),
             historyOn (clock w) (ticks w) (Card.name card) (Card.effects card) st)
      (mkWorld (<[fresh (dom (store w)) := SessionObj (played card st' s)]>
                  (<[GameSession.currentState s := StateObj st']> (store w)))
               (clock w) (ticks w + 2 * length (Card.effects card))).
Proof.
  intros Hs Hst Hrun.
  set (new := fresh (dom (store w))).
  assert (Hnew : store w !! new = None) by apply fresh_unused.
  assert (Hne : new ≠ GameSession.currentState s) by (intros E; congruence).
  pose proof (foldM_applyEffect_exact card new s (Card.effects card)
                (mkWorld (<[new := SessionObj s]> (store w)) (clock w) (ticks w))
                st st' []) as Hloop.
  cbn [store clock ticks] in Hloop.
  specialize (Hloop (lookup_insert_eq _ _ _)).
  rewrite lookup_insert_ne in Hloop by done. specialize (Hloop Hst Hrun).
  unfold processTurn.
  run (spread_eq _ _ _ Hs). fold new. run Hloop.
  assign_at s. assign_at_top.
  lazymatch goal with
  | |- (checkGameEnd new ≫= _) ?w2 = _ =>
      assert (Hend : checkGameEnd new w2
                     = Returns (gameEnd st' (GameSession.turnCount s)) w2)
  end.
  { lazymatch goal with
    | |- context [<[new := SessionObj ?s2]> _] =>
        apply (Engine.checkGameEnd_eq _ new s2 st'); cbn [store]
    end.
    - apply lookup_insert_eq.
    - cbn. rewrite !lookup_insert_ne by done. apply lookup_insert_eq. }
  run Hend.
  assign_at_top. assign_at_top.
  unfold mret, M_ret. f_equal. f_equal.
  rewrite !insert_insert_eq.
  rewrite (insert_insert_ne _ (GameSession.currentState s) new) by done.
  rewrite insert_insert_eq. reflexivity.
Qed.

(** [processTurn] on a card whose effects [pre] are followed by one with
    an unknown target. *)
Lemma processTurn_throws (w : World) (session : loc) (s : GameSession.t)
    (st st1 : HomeostaticState.t) (card : Card.t)
    (pre post : list CardEffect.t) (bad : CardEffect.t) :
  store w !! session = Some (SessionObj s) →
  store w !! GameSession.currentState s = Some (StateObj st) →
  Card.effects card = pre ++ bad :: post →
  effectsOn (clock w) (ticks w) pre st = Some st1 →
  ¬ validTarget bad →
  processTurn session card w =
    Throws TypeError
      (mkWorld (<[GameSession.currentState s := StateObj st1]>
                  (<[fresh (dom (store w)) := SessionObj s]> (store w)))
               (clock w) (ticks w + 2 * length pre)).
Proof.
  intros Hs Hst Heffects Hrun Hbad.
  set (new := fresh (dom (store w))).
  assert (Hnew : store w !! new = None) by apply fresh_unused.
  assert (Hne : new ≠ GameSession.currentState s) by (intros E; congruence).
  pose proof (foldM_applyEffect_throws card new s bad post pre
                (mkWorld (<[new := SessionObj s]> (store w)) (clock w) (ticks w))
                st st1 []) as Hloop.
  cbn [store clock ticks] in Hloop.
  specialize (Hloop (lookup_insert_eq _ _ _)).
  rewrite lookup_insert_ne in Hloop by done.
  specialize (Hloop Hst Hrun Hbad).
  unfold processTurn.
  run (spread_eq _ _ _ Hs). fold new.
  rewrite bind_run, Heffects, Hloop. reflexivity.
Qed.

End Trace.

(** ** Cards with an unknown target *)

(** X1.  When the first effect of the played card whose target is not one
    of the three systems comes after the effects [pre], [processTurn]
    raises [TypeError] and returns no session, yet the effects of [pre] are
    already written to the state object of the input session; the input
    session object itself is as it was. *)
Theorem processTurn_unknown_target (w : World) (session : loc)
    (s : GameSession.t) (st : HomeostaticState.t) (card : Card.t)
    (pre post : list CardEffect.t) (bad : CardEffect.t) :
  store w !! session = Some (SessionObj s) →
  store w !! GameSession.currentState s = Some (StateObj st) →
  Card.effects card = pre ++ bad :: post →
  Forall Summary.validTarget pre →
  ¬ Summary.validTarget bad →
  ∃ st1 w',
    Summary.effectsOn (clock w) (ticks w) pre st = Some st1 ∧
    GameEngine.processTurn session card w = Throws TypeError w' ∧
    store w' !! GameSession.currentState s = Some (StateObj st1) ∧
    store w' !! session = Some (SessionObj s).
Proof.
  intros Hs Hst Heffects Hpre Hbad.
  destruct (Loop.effectsOn_valid (clock w) pre Hpre (ticks w) st) as [st1 Hrun].
  pose proof (fresh_unused w) as Hnew.
  assert (Hne : fresh (dom (store w)) ≠ session) by (intros E; congruence).
  pose proof (session_state_apart w _ _ _ _ Hs Hst) as Hne'.
  exists st1. eexists. split; [exact Hrun |]. split.
  - apply (Trace.processTurn_throws w session s st st1 card pre post bad
             Hs Hst Heffects Hrun Hbad).
  - cbn [store]. split.
    + apply lookup_insert_eq.
    + rewrite !lookup_insert_ne by done. exact Hs.
Qed.

Lemma processTurn_unknown_target_witness :
  ∃ st1 w',
    Summary.effectsOn (λ n, Z.of_nat n) 0 [Demo.effect "glucose" (-10 # 1)]
      Demo.normalState = Some st1 ∧
    GameEngine.processTurn 1%positive
      (Demo.card "broken" [Demo.effect "glucose" (-10 # 1);
                           Demo.effect "insulin" (5 # 1)])
      (Demo.world (Demo.session IN_PROGRESS 1 [] [] []) Demo.normalState)
    = Throws TypeError w' ∧
    store w' !! 2%positive = Some (StateObj st1) ∧
    store w' !! 1%positive
    = Some (SessionObj (Demo.session IN_PROGRESS 1 [] [] [])).
Proof.
  apply (processTurn_unknown_target
           (Demo.world (Demo.session IN_PROGRESS 1 [] [] []) Demo.normalState)
           1%positive (Demo.session IN_PROGRESS 1 [] [] []) Demo.normalState
           (Demo.card "broken" [Demo.effect "glucose" (-10 # 1);
                                Demo.effect "insulin" (5 # 1)])
           [Demo.effect "glucose" (-10 # 1)] [] (Demo.effect "insulin" (5 # 1))).
  - reflexivity.
  - reflexivity.
  - reflexivity.
  - constructor; [left; reflexivity | constructor].
  - intros [H | [H | H]]; discriminate H.
Defined.

(** X2.  [processTurn] returns a session exactly when every effect of the
    played card targets "glucose", "ph" or "temperature"; otherwise it
    raises [TypeError]. *)
Theorem processTurn_returns_iff_valid (w : World) (session : loc)
    (s : GameSession.t) (st : HomeostaticState.t) (card : Card.t) :
  store w !! session = Some (SessionObj s) →
  store w !! GameSession.currentState s = Some (StateObj st) →
  ((∃ result w', GameEngine.processTurn session card w = Returns result w')
   ↔ Summary.validCard card) ∧
  ((∃ w', GameEngine.processTurn session card w = Throws TypeError w')
   ↔ ¬ Summary.validCard card).
Proof.
  intros Hs Hst.
  destruct (Trace.first_invalid (Card.effects card))
    as [Hvalid | (pre & bad & post & Heffects & Hpre & Hbad)].
  - destruct (Rule.processTurn_returns w session s st card Hs Hst Hvalid)
      as (newSession & history & w' & st' & Hcall & _).
    split; split.
    + intros _. exact Hvalid.
    + intros _. eauto.
    + intros [w2 Hthrow]. congruence.
    + intros Hn. contradiction.
  - destruct (Loop.effectsOn_valid (clock w) pre Hpre (ticks w) st) as [st1 Hrun].
    pose proof (Trace.processTurn_throws w session s st st1 card pre post bad
                  Hs Hst Heffects Hrun Hbad) as Hthrow.
    assert (Hinvalid : ¬ Summary.validCard card).
    { unfold Summary.validCard. rewrite Heffects. intros Hall.
      apply Forall_app in Hall as [_ Hall].
      apply Forall_cons in Hall as [Hall _]. contradiction. }
    split; split.
    + intros (result & w2 & Hret). congruence.
    + intros Hv. contradiction.
    + intros _. exact Hinvalid.
    + intros _. eauto.
Qed.

Lemma processTurn_returns_iff_valid_witness :
  ((∃ result w',
      GameEngine.processTurn 1%positive
        (Demo.card "broken" [Demo.effect "insulin" (5 # 1)])
        (Demo.world (Demo.session IN_PROGRESS 1 [] [] []) Demo.normalState)
      = Returns result w')
   ↔ Summary.validCard (Demo.card "broken" [Demo.effect "insulin" (5 # 1)])) ∧
  ((∃ w',
      GameEngine.processTurn 1%positive
        (Demo.card "broken" [Demo.effect "insulin" (5 # 1)])
        (Demo.world (Demo.session IN_PROGRESS 1 [] [] []) Demo.normalState)
      = Throws TypeError w')
   ↔ ¬ Summary.validCard (Demo.card "broken" [Demo.effect "insulin" (5 # 1)])).
Proof.
  apply (processTurn_returns_iff_valid
           (Demo.world (Demo.session IN_PROGRESS 1 [] [] []) Demo.normalState)
           1%positive (Demo.session IN_PROGRESS 1 [] [] []) Demo.normalState
           (Demo.card "broken" [Demo.effect "insulin" (5 # 1)]));
    reflexivity.
Defined.

(** ** What the effect loop does to the three biomarkers *)

Module States.
Import Summary Detail.

Lemma get_set_other (key key' : string) (b : Biomarker.t)
    (st : HomeostaticState.t) :
  key ≠ key' →
  HomeostaticState.get key (HomeostaticState.set key' b st)
  = HomeostaticState.get key st.
Proof.
  intros Hne. unfold HomeostaticState.get, HomeostaticState.set.
  destruct (String.eqb_spec key' "glucose") as [-> | Hg'];
    [destruct (String.eqb_spec key "glucose"); [done | reflexivity] |].
  destruct (String.eqb_spec key' "ph") as [-> | Hp'];
    [destruct (String.eqb_spec key "glucose"); [reflexivity |];
     destruct (String.eqb_spec key "ph"); [done | reflexivity] |].
  destruct (String.eqb_spec key' "temperature") as [-> | Ht'];
    [destruct (String.eqb_spec key "glucose"); [reflexivity |];
     destruct (String.eqb_spec key "ph"); [reflexivity |];
     destruct (String.eqb_spec key "temperature"); [done | reflexivity] |].
  reflexivity.
Qed.

(** The biomarkers of a state are what its three keys hold. *)
Lemma values_get (st : HomeostaticState.t) (b : Biomarker.t) :
  b ∈ HomeostaticState.values st ↔
  ∃ key, HomeostaticState.get key st = Some b.
Proof.
  unfold HomeostaticState.values. split.
  - intros Hin. apply elem_of_cons in Hin as [-> | Hin]; [by exists "glucose" |].
    apply elem_of_cons in Hin as [-> | Hin]; [by exists "ph" |].
    apply list_elem_of_singleton in Hin as ->. by exists "temperature".
  - intros [key Hget]. unfold HomeostaticState.get in Hget.
    destruct (String.eqb key "glucose"); [injection Hget as <-; set_solver |].
    destruct (String.eqb key "ph"); [injection Hget as <-; set_solver |].
    destruct (String.eqb key "temperature"); [injection Hget as <-; set_solver |].
    discriminate.
Qed.

(** One key of the state through the whole loop. *)
Lemma effectsOn_key (clk : nat → Date) (key : string)
    (effects : list CardEffect.t) :
  ∀ (t : nat) (st st' : HomeostaticState.t) (b : Biomarker.t),
    effectsOn clk t effects st = Some st' →
    HomeostaticState.get key st = Some b →
    ∃ b', HomeostaticState.get key st' = Some b' ∧
          (Biomarker.currentValue b'
           == Biomarker.currentValue b + totalDelta key effects)%Q ∧
          Biomarker.system b' = Biomarker.system b ∧
          Biomarker.name b' = Biomarker.name b ∧
          Biomarker.unit b' = Biomarker.unit b ∧
          Biomarker.normalRange b' = Biomarker.normalRange b ∧
          Biomarker.criticalRange b' = Biomarker.criticalRange b ∧
          (Forall (λ effect, CardEffect.targetSystem effect ≠ key) effects →
           b' = b) ∧
          (consistent b → consistent b') ∧
          (Exists (λ effect, CardEffect.targetSystem effect = key) effects →
           consistent b').
Proof.
  induction effects as [| effect rest IH]; intros t st st' b Hrun Hget.
  - cbn in Hrun. injection Hrun as <-. exists b. cbn.
    repeat split; try done; [lra |]. intros H. by apply Exists_nil in H.
  - cbn in Hrun. unfold effectOn in Hrun.
    destruct (HomeostaticState.get (CardEffect.targetSystem effect) st)
      as [b0 |] eqn:Hget0; [| discriminate].
    cbn [totalDelta foldr]. fold (totalDelta key rest).
    destruct (String.eqb_spec (CardEffect.targetSystem effect) key) as [E | E].
    + assert (b0 = b) as -> by (rewrite E in Hget0; congruence).
      rewrite E in Hrun.
      destruct (IH _ _ _ (updated b (CardEffect.value effect) (clk t)) Hrun)
        as (b' & Hget' & Hval & Hsys & Hname & Hunit & Hnorm & Hcrit & _ & Hcons & _).
      { apply get_set. rewrite <- E, Hget0. eauto. }
      exists b'. split; [exact Hget' |].
      split; [rewrite Hval; cbn; lra |].
      repeat split; try done.
      * intros Hall. apply Forall_cons in Hall as [Hne _]. contradiction.
      * intros _. apply Hcons. reflexivity.
      * intros _. apply Hcons. reflexivity.
    + destruct (IH _ _ _ b Hrun)
        as (b' & Hget' & Hval & Hsys & Hname & Hunit & Hnorm & Hcrit & Hsame & Hcons & Hhit).
      { rewrite get_set_other by done. exact Hget. }
      exists b'. repeat split; try done.
      * intros Hall. apply Forall_cons in Hall as [_ Hall]. by apply Hsame.
      * intros Hex. apply Exists_cons in Hex as [Hex | Hex]; [contradiction |].
        by apply Hhit.
Qed.

End States.

Module History.
Import Summary Detail.

Lemma historyOn_length (clk : nat → Date) (cardName : string)
    (effects : list CardEffect.t) :
  ∀ (t : nat) (st st' : HomeostaticState.t),
    effectsOn clk t effects st = Some st' →
    length (historyOn clk t cardName effects st) = length effects.
Proof.
  induction effects as [| effect rest IH]; intros t st st' Hrun; [reflexivity |].
  cbn in *. unfold effectOn in Hrun.
  destruct (HomeostaticState.get _ st) as [b |]; [| discriminate].
  cbn. f_equal. by eapply IH.
Qed.

(** The record at position [i] is the one of effect [i], taken on the
    state the effects before it produced. *)
Lemma historyOn_lookup (clk : nat → Date) (cardName : string)
    (effects : list CardEffect.t) :
  ∀ (t : nat) (st st' : HomeostaticState.t) (i : nat) (entry : BiomarkerHistory.t),
    effectsOn clk t effects st = Some st' →
    historyOn clk t cardName effects st !! i = Some entry →
    ∃ effect st_i b,
      effects !! i = Some effect ∧
      effectsOn clk t (take i effects) st = Some st_i ∧
      HomeostaticState.get (CardEffect.targetSystem effect) st_i = Some b ∧
      entry = entryOf cardName (clk (S (t + 2 * i))) effect b.
Proof.
  induction effects as [| effect rest IH]; intros t st st' i entry Hrun Hentry;
    [discriminate |].
  cbn in Hrun, Hentry. unfold effectOn in Hrun.
  destruct (HomeostaticState.get _ st) as [b |] eqn:Hget; [| discriminate].
  destruct i as [| i].
  - injection Hentry as <-. exists effect, st, b. cbn.
    rewrite Nat.add_0_r. done.
  - cbn in Hentry.
    destruct (IH _ _ _ _ _ Hrun Hentry) as (e & st_i & b_i & He & Hpre & Hb & ->).
    exists e, st_i, b_i. split; [exact He |]. split.
    + cbn. unfold effectOn. rewrite Hget. exact Hpre.
    + split; [exact Hb |]. do 2 f_equal. lia.
Qed.

End History.

(** ** The audit trail *)

(** X3.  The history [processTurn] returns has one record per effect of
    the card, in the card's order.  Record [i] names the target of effect
    [i], its [change] is the effect's value, its [oldValue] is the reading
    the target had after the effects before it, its [newValue] is
    [oldValue + change], and its reason is "Card played: " followed by the
    card's name. *)
Theorem processTurn_history (w : World) (session : loc) (s : GameSession.t)
    (st : HomeostaticState.t) (card : Card.t) :
  store w !! session = Some (SessionObj s) →
  store w !! GameSession.currentState s = Some (StateObj st) →
  Summary.validCard card →
  ∃ newSession history w',
    GameEngine.processTurn session card w = Returns (newSession, history) w' ∧
    length history = length (Card.effects card) ∧
    ∀ (i : nat) (entry : BiomarkerHistory.t),
      history !! i = Some entry →
      ∃ effect st_i b,
        Card.effects card !! i = Some effect ∧
        Summary.effectsOn (clock w) (ticks w) (take i (Card.effects card)) st
        = Some st_i ∧
        HomeostaticState.get (CardEffect.targetSystem effect) st_i = Some b ∧
        BiomarkerHistory.system entry = CardEffect.targetSystem effect ∧
        BiomarkerHistory.oldValue entry = Biomarker.currentValue b ∧
        BiomarkerHistory.change entry = CardEffect.value effect ∧
        BiomarkerHistory.newValue entry
        = (BiomarkerHistory.oldValue entry + BiomarkerHistory.change entry)%Q ∧
        BiomarkerHistory.reason entry = "Card played: " +:+ Card.name card.
Proof.
  intros Hs Hst Hvalid.
  destruct (Loop.effectsOn_valid (clock w) _ Hvalid (ticks w) st) as [st' Hrun].
  eexists _, _, _. split; [apply (Trace.processTurn_exact w session s st st' card Hs Hst Hrun) |].
  split; [by eapply History.historyOn_length |].
  intros i entry Hentry.
  destruct (History.historyOn_lookup _ _ _ _ _ _ _ _ Hrun Hentry)
    as (effect & st_i & b & He & Hpre & Hb & ->).
  exists effect, st_i, b. repeat split; done.
Qed.

(** The card [swing]: four effects, four records. *)
Lemma processTurn_history_witness :
  ∃ newSession history w',
    GameEngine.processTurn 1%positive Demo.swing
      (Demo.world (Demo.session IN_PROGRESS 1 [Demo.swing] [] []) Demo.normalState)
    = Returns (newSession, history) w' ∧
    length history = length (Card.effects Demo.swing) ∧
    ∀ (i : nat) (entry : BiomarkerHistory.t),
      history !! i = Some entry →
      ∃ effect st_i b,
        Card.effects Demo.swing !! i = Some effect ∧
        Summary.effectsOn (λ n, Z.of_nat n) 0 (take i (Card.effects Demo.swing))
          Demo.normalState = Some st_i ∧
        HomeostaticState.get (CardEffect.targetSystem effect) st_i = Some b ∧
        BiomarkerHistory.system entry = CardEffect.targetSystem effect ∧
        BiomarkerHistory.oldValue entry = Biomarker.currentValue b ∧
        BiomarkerHistory.change entry = CardEffect.value effect ∧
        BiomarkerHistory.newValue entry
        = (BiomarkerHistory.oldValue entry + BiomarkerHistory.change entry)%Q ∧
        BiomarkerHistory.reason entry = "Card played: " +:+ Card.name Demo.swing.
Proof.
  apply (processTurn_history
           (Demo.world (Demo.session IN_PROGRESS 1 [Demo.swing] [] []) Demo.normalState)
           1%positive (Demo.session IN_PROGRESS 1 [Demo.swing] [] [])
           Demo.normalState Demo.swing).
  - reflexivity.
  - reflexivity.
  - constructor; [left; reflexivity |].
    constructor; [right; left; reflexivity |].
    constructor; [left; reflexivity |].
    constructor; [right; left; reflexivity |].
    constructor.
Defined.

(** ** Readings, ranges and flags across a turn *)

Lemma get_is_Some_any (key : string) (st1 st2 : HomeostaticState.t) :
  is_Some (HomeostaticState.get key st1) → is_Some (HomeostaticState.get key st2).
Proof.
  unfold HomeostaticState.get.
  destruct (String.eqb key "glucose"); [eauto |].
  destruct (String.eqb key "ph"); [eauto |].
  destruct (String.eqb key "temperature"); [eauto |].
  by intros [? ?].
Qed.



(** X5.  [processTurn] never changes what a biomarker is measured
    against: system tag, name, unit, normal range and critical range of
    each of the three biomarkers are after the call what they were
    before. *)
Theorem processTurn_keeps_ranges (w : World) (session : loc) (s : GameSession.t)
    (st : HomeostaticState.t) (card : Card.t) (key : string) (b : Biomarker.t) :
  store w !! session = Some (SessionObj s) →
  store w !! GameSession.currentState s = Some (StateObj st) →
  Summary.validCard card →
  HomeostaticState.get key st = Some b →
  ∃ newSession history w' st' b',
    GameEngine.processTurn session card w = Returns (newSession, history) w' ∧
    store w' !! GameSession.currentState s = Some (StateObj st') ∧
    HomeostaticState.get key st' = Some b' ∧
    Biomarker.system b' = Biomarker.system b ∧
    Biomarker.name b' = Biomarker.name b ∧
    Biomarker.unit b' = Biomarker.unit b ∧
    Biomarker.normalRange b' = Biomarker.normalRange b ∧
    Biomarker.criticalRange b' = Biomarker.criticalRange b.
Proof.
  intros Hs Hst Hvalid Hget.
  destruct (Rule.processTurn_returns w session s st card Hs Hst Hvalid)
    as (newSession & history & w' & st' & Hcall & Hrun & _ & Hstate & _).
  destruct (States.effectsOn_key _ key _ _ _ _ b Hrun Hget)
    as (b' & Hget' & _ & Hsys & Hname & Hunit & Hnorm & Hcrit & _).
  exists newSession, history, w', st', b'. repeat split; done.
Qed.

Lemma processTurn_keeps_ranges_witness :
  ∃ newSession history w' st' b',
    GameEngine.processTurn 1%positive Demo.cardY
      (Demo.world (Demo.session IN_PROGRESS 1 [Demo.cardY] [] []) Demo.normalState)
    = Returns (newSession, history) w' ∧
    store w' !! 2%positive = Some (StateObj st') ∧
    HomeostaticState.get "ph" st' = Some b' ∧
    Biomarker.system b' = PH ∧
    Biomarker.name b' = "pH" ∧
    Biomarker.unit b' = "" ∧
    Biomarker.normalRange b' = (147 # 20, 149 # 20) ∧
    Biomarker.criticalRange b' = (36 # 5, 38 # 5).
Proof.
  apply (processTurn_keeps_ranges
           (Demo.world (Demo.session IN_PROGRESS 1 [Demo.cardY] [] []) Demo.normalState)
           1%positive (Demo.session IN_PROGRESS 1 [Demo.cardY] [] [])
           Demo.normalState Demo.cardY "ph" (Demo.ph (37 # 5) false)).
  - reflexivity.
  - reflexivity.
  - constructor; [right; left; reflexivity | constructor].
  - reflexivity.
Defined.

(** X6.  If before the call every [isCritical] flag says whether its
    reading lies outside the critical range, the same holds after
    [processTurn]; and whatever the flags were before, the flag of a
    biomarker that some effect of the card targets is right afterwards. *)
Theorem processTurn_keeps_flags_consistent (w : World) (session : loc)
    (s : GameSession.t) (st : HomeostaticState.t) (card : Card.t) :
  store w !! session = Some (SessionObj s) →
  store w !! GameSession.currentState s = Some (StateObj st) →
  Summary.validCard card →
  ∃ newSession history w' st',
    GameEngine.processTurn session card w = Returns (newSession, history) w' ∧
    store w' !! GameSession.currentState s = Some (StateObj st') ∧
    (Detail.flagsConsistent st → Detail.flagsConsistent st') ∧
    (∀ (key : string) (b' : Biomarker.t),
       HomeostaticState.get key st' = Some b' →
       Exists (λ effect, CardEffect.targetSystem effect = key) (Card.effects card) →
       Biomarker.isCritical b' = true ↔
         (Biomarker.currentValue b' < fst (Biomarker.criticalRange b'))%Q ∨
         (snd (Biomarker.criticalRange b') < Biomarker.currentValue b')%Q).
Proof.
  intros Hs Hst Hvalid.
  destruct (Rule.processTurn_returns w session s st card Hs Hst Hvalid)
    as (newSession & history & w' & st' & Hcall & Hrun & _ & Hstate & _).
  exists newSession, history, w', st'.
  split; [exact Hcall |]. split; [exact Hstate |]. split.
  - intros Hcons b' Hin. apply States.values_get in Hin as [key Hget'].
    destruct (get_is_Some_any key st' st) as [b Hget]; [eauto |].
    destruct (States.effectsOn_key _ key _ _ _ _ b Hrun Hget)
      as (b2 & Hget2 & _ & _ & _ & _ & _ & _ & _ & Hkeep & _).
    assert (b2 = b') as -> by congruence.
    apply Hkeep, Hcons, States.values_get. eauto.
  - intros key b' Hget' Hhit.
    destruct (get_is_Some_any key st' st) as [b Hget]; [eauto |].
    destruct (States.effectsOn_key _ key _ _ _ _ b Hrun Hget)
      as (b2 & Hget2 & _ & _ & _ & _ & _ & _ & _ & _ & Hfix).
    assert (b2 = b') as -> by congruence.
    specialize (Hfix Hhit). unfold Detail.consistent in Hfix.
    rewrite Hfix. apply isCritical_iff.
Qed.

(** Glucose reads 40 with its flag unset; [cardX] (glucose -10) sets it. *)
Lemma processTurn_keeps_flags_consistent_witness :
  ∃ newSession history w' st',
    GameEngine.processTurn 1%positive Demo.cardX
      (Demo.world (Demo.session IN_PROGRESS 1 [Demo.cardX] [] [])
         (HomeostaticState.mk (Demo.glucose (40 # 1) false)
            (Demo.ph (37 # 5) false) (Demo.temperature (37 # 1) false)))
    = Returns (newSession, history) w' ∧
    store w' !! 2%positive = Some (StateObj st') ∧
    (Detail.flagsConsistent
       (HomeostaticState.mk (Demo.glucose (40 # 1) false)
          (Demo.ph (37 # 5) false) (Demo.temperature (37 # 1) false)) →
     Detail.flagsConsistent st') ∧
    (∀ (key : string) (b' : Biomarker.t),
       HomeostaticState.get key st' = Some b' →
       Exists (λ effect, CardEffect.targetSystem effect = key)
              (Card.effects Demo.cardX) →
       Biomarker.isCritical b' = true ↔
         (Biomarker.currentValue b' < fst (Biomarker.criticalRange b'))%Q ∨
         (snd (Biomarker.criticalRange b') < Biomarker.currentValue b')%Q).
Proof.
  apply (processTurn_keeps_flags_consistent
           (Demo.world (Demo.session IN_PROGRESS 1 [Demo.cardX] [] [])
              (HomeostaticState.mk (Demo.glucose (40 # 1) false)
                 (Demo.ph (37 # 5) false) (Demo.temperature (37 # 1) false)))
           1%positive (Demo.session IN_PROGRESS 1 [Demo.cardX] [] [])
           (HomeostaticState.mk (Demo.glucose (40 # 1) false)
              (Demo.ph (37 # 5) false) (Demo.temperature (37 # 1) false))
           Demo.cardX).
  - reflexivity.
  - reflexivity.
  - constructor; [left; reflexivity | constructor].
Defined.

(** ** Trend *)




(** ** What a turn leaves alone *)

(** X8.  Playing a card whose id no card of the hand carries leaves the
    hand as it is and still appends the card to the discard pile: the three
    piles together gain one card. *)
Theorem processTurn_card_not_in_hand (w : World) (session : loc)
    (s : GameSession.t) (st : HomeostaticState.t) (card : Card.t) :
  store w !! session = Some (SessionObj s) →
  store w !! GameSession.currentState s = Some (StateObj st) →
  Summary.validCard card →
  Summary.copies (Card.id card) (GameSession.hand s) = 0%nat →
  ∃ newSession history w' s',
    GameEngine.processTurn session card w = Returns (newSession, history) w' ∧
    store w' !! newSession = Some (SessionObj s') ∧
    GameSession.hand s' = GameSession.hand s ∧
    GameSession.discardPile s' = GameSession.discardPile s ++ [card] ∧
    length (GameSession.piles s') = S (length (GameSession.piles s)).
Proof.
  intros Hs Hst Hvalid Hcopies.
  destruct (Rule.processTurn_returns w session s st card Hs Hst Hvalid)
    as (newSession & history & w' & st' & Hcall & _ & Hnew & _).
  exists newSession, history, w', (Summary.played card st' s).
  split; [exact Hcall |]. split; [exact Hnew |].
  assert (Hhand : filter (λ c, Card.id c ≠ Card.id card) (GameSession.hand s)
                  = GameSession.hand s).
  { apply Piles.filter_keeps_all. intros c Hin Hid.
    unfold Summary.copies in Hcopies. apply length_zero_iff_nil in Hcopies.
    assert (Hc : c ∈ filter (λ c, Card.id c = Card.id card) (GameSession.hand s))
      by (apply list_elem_of_filter; done).
    rewrite Hcopies in Hc. by apply elem_of_nil in Hc. }
  cbn [Summary.played GameSession.hand GameSession.discardPile].
  split; [exact Hhand |]. split; [reflexivity |].
  unfold GameSession.piles.
  cbn [Summary.played GameSession.hand GameSession.deck GameSession.discardPile].
  rewrite Hhand, !length_app. cbn [length]. lia.
Qed.

Lemma processTurn_card_not_in_hand_witness :
  ∃ newSession history w' s',
    GameEngine.processTurn 1%positive Demo.cardY
      (Demo.world (Demo.session IN_PROGRESS 1 [Demo.cardX] [] []) Demo.normalState)
    = Returns (newSession, history) w' ∧
    store w' !! newSession = Some (SessionObj s') ∧
    GameSession.hand s' = [Demo.cardX] ∧
    GameSession.discardPile s' = [] ++ [Demo.cardY] ∧
    length (GameSession.piles s') = 2%nat.
Proof.
  apply (processTurn_card_not_in_hand
           (Demo.world (Demo.session IN_PROGRESS 1 [Demo.cardX] [] []) Demo.normalState)
           1%positive (Demo.session IN_PROGRESS 1 [Demo.cardX] [] [])
           Demo.normalState Demo.cardY).
  - reflexivity.
  - reflexivity.
  - constructor; [right; left; reflexivity | constructor].
  - reflexivity.
Defined.



(** X10.  [processTurn] writes four fields of the session it returns:
    hand, discard pile, status and turn count.  It never draws and never
    recomputes the score: deck, score, current event, ids, timestamps and
    difficulty are the input's. *)
Theorem processTurn_keeps_session_fields (w : World) (session : loc)
    (s : GameSession.t) (st : HomeostaticState.t) (card : Card.t) :
  store w !! session = Some (SessionObj s) →
  store w !! GameSession.currentState s = Some (StateObj st) →
  Summary.validCard card →
  ∃ newSession history w' s',
    GameEngine.processTurn session card w = Returns (newSession, history) w' ∧
    store w' !! newSession = Some (SessionObj s') ∧
    GameSession.deck s' = GameSession.deck s ∧
    GameSession.score s' = GameSession.score s ∧
    GameSession.currentEvent s' = GameSession.currentEvent s ∧
    GameSession.id s' = GameSession.id s ∧
    GameSession.playerId s' = GameSession.playerId s ∧
    GameSession.startTime s' = GameSession.startTime s ∧
    GameSession.lastSave s' = GameSession.lastSave s ∧
    GameSession.difficulty s' = GameSession.difficulty s ∧
    GameSession.turnCount s' = GameSession.turnCount s + 1.
Proof.
  intros Hs Hst Hvalid.
  destruct (Rule.processTurn_returns w session s st card Hs Hst Hvalid)
    as (newSession & history & w' & st' & Hcall & _ & Hnew & _).
  exists newSession, history, w', (Summary.played card st' s).
  split; [exact Hcall |]. split; [exact Hnew |]. repeat split.
Qed.

Lemma processTurn_keeps_session_fields_witness :
  ∃ newSession history w' s',
    GameEngine.processTurn 1%positive Demo.cardX
      (Demo.world (Demo.session IN_PROGRESS 4 [Demo.cardX] [Demo.cardY] [])
                  Demo.normalState)
    = Returns (newSession, history) w' ∧
    store w' !! newSession = Some (SessionObj s') ∧
    GameSession.deck s' = [Demo.cardY] ∧
    GameSession.score s' = 0 ∧
    GameSession.currentEvent s' = None ∧
    GameSession.id s' = "session-1" ∧
    GameSession.playerId s' = "player-1" ∧
    GameSession.startTime s' = 0 ∧
    GameSession.lastSave s' = 0 ∧
    GameSession.difficulty s' = easy ∧
    GameSession.turnCount s' = 4 + 1.
Proof.
  apply (processTurn_keeps_session_fields
           (Demo.world (Demo.session IN_PROGRESS 4 [Demo.cardX] [Demo.cardY] [])
                       Demo.normalState)
           1%positive (Demo.session IN_PROGRESS 4 [Demo.cardX] [Demo.cardY] [])
           Demo.normalState Demo.cardX).
  - reflexivity.
  - reflexivity.
  - constructor; [left; reflexivity | constructor].
Defined.

(** X11.  The status [processTurn] returns is [DEFEAT], [VICTORY] or
    [IN_PROGRESS], never [LOBBY] or [PAUSED], whatever the status of the
    input.  It is [IN_PROGRESS] exactly when fewer than two biomarkers are
    critical and the victory conditions fail; with exactly one biomarker
    critical it is [IN_PROGRESS] at every turn count. *)
Theorem processTurn_status_range (w : World) (session : loc)
    (s : GameSession.t) (st : HomeostaticState.t) (card : Card.t) :
  store w !! session = Some (SessionObj s) →
  store w !! GameSession.currentState s = Some (StateObj st) →
  Summary.validCard card →
  ∃ newSession history w' s' st',
    GameEngine.processTurn session card w = Returns (newSession, history) w' ∧
    store w' !! newSession = Some (SessionObj s') ∧
    store w' !! GameSession.currentState s' = Some (StateObj st') ∧
    (GameSession.status s' = DEFEAT ∨ GameSession.status s' = VICTORY ∨
     GameSession.status s' = IN_PROGRESS) ∧
    (GameSession.status s' = IN_PROGRESS ↔
       (Summary.criticalCount st' < 2)%nat ∧
       ¬ (Summary.allStable st' ∧ 5 < GameSession.turnCount s)) ∧
    (Summary.criticalCount st' = 1%nat → GameSession.status s' = IN_PROGRESS).
Proof.
  intros Hs Hst Hvalid.
  destruct (Rule.processTurn_returns w session s st card Hs Hst Hvalid)
    as (newSession & history & w' & st' & Hcall & _ & Hnew & Hstate & _).
  exists newSession, history, w', (Summary.played card st' s), st'.
  split; [exact Hcall |]. split; [exact Hnew |]. split; [exact Hstate |].
  cbn [Summary.played GameSession.status].
  pose proof (Rule.gameEnd_defeat_iff st' (GameSession.turnCount s)) as Hd.
  pose proof (Rule.gameEnd_victory_iff st' (GameSession.turnCount s)) as Hv.
  assert (Hcases : Summary.gameEnd st' (GameSession.turnCount s) = DEFEAT ∨
                   Summary.gameEnd st' (GameSession.turnCount s) = VICTORY ∨
                   Summary.gameEnd st' (GameSession.turnCount s) = IN_PROGRESS).
  { unfold Summary.gameEnd. destruct (2 <=? _); [by left |].
    destruct (forallb _ _ && _); [right; by left | right; by right]. }
  assert (Hiff : Summary.gameEnd st' (GameSession.turnCount s) = IN_PROGRESS ↔
                 (Summary.criticalCount st' < 2)%nat ∧
                 ¬ (Summary.allStable st' ∧ 5 < GameSession.turnCount s)).
  { split.
    - intros Hp. split.
      + destruct (decide (2 ≤ Summary.criticalCount st')%nat) as [Hc | Hc]; [| lia].
        apply Hd in Hc. congruence.
      + intros Hc. apply Hv in Hc. congruence.
    - intros [Hc Hn]. destruct Hcases as [H | [H | H]]; [| | exact H].
      + apply Hd in H. lia.
      + apply Hv in H. contradiction. }
  split; [exact Hcases |]. split; [exact Hiff |].
  intros Hone. apply Hiff. split; [lia |].
  intros [Hstable _]. apply Rule.allStable_criticalCount in Hstable. lia.
Qed.

(** A [PAUSED] session with glucose flagged critical, at turn 9. *)
Lemma processTurn_status_range_witness :
  ∃ newSession history w' s' st',
    GameEngine.processTurn 1%positive Demo.neutral
      (Demo.world (Demo.session PAUSED 9 [] [] [])
         (HomeostaticState.mk (Demo.glucose (40 # 1) true)
            (Demo.ph (37 # 5) false) (Demo.temperature (37 # 1) false)))
    = Returns (newSession, history) w' ∧
    store w' !! newSession = Some (SessionObj s') ∧
    store w' !! GameSession.currentState s' = Some (StateObj st') ∧
    (GameSession.status s' = DEFEAT ∨ GameSession.status s' = VICTORY ∨
     GameSession.status s' = IN_PROGRESS) ∧
    (GameSession.status s' = IN_PROGRESS ↔
       (Summary.criticalCount st' < 2)%nat ∧
       ¬ (Summary.allStable st' ∧ 5 < 9)) ∧
    (Summary.criticalCount st' = 1%nat → GameSession.status s' = IN_PROGRESS).
Proof.
  apply (processTurn_status_range
           (Demo.world (Demo.session PAUSED 9 [] [] [])
              (HomeostaticState.mk (Demo.glucose (40 # 1) true)
                 (Demo.ph (37 # 5) false) (Demo.temperature (37 # 1) false)))
           1%positive (Demo.session PAUSED 9 [] [] [])
           (HomeostaticState.mk (Demo.glucose (40 # 1) true)
              (Demo.ph (37 # 5) false) (Demo.temperature (37 # 1) false))
           Demo.neutral).
  - reflexivity.
  - reflexivity.
  - constructor.
Defined.

(** ** Drawing, continued *)

(** X12.  With a non-empty deck [drawCard] draws its first card: the deck
    loses it, the hand gains it at the end, and the discard pile is left
    alone, whatever it holds. *)
Theorem drawCard_top_of_deck (w : World) (session : loc) (s : GameSession.t)
    (top : Card.t) (rest : list Card.t) :
  store w !! session = Some (SessionObj s) →
  GameSession.deck s = top :: rest →
  ∃ newSession w' s',
    GameEngine.drawCard session w = Returns (newSession, Some top) w' ∧
    store w' !! newSession = Some (SessionObj s') ∧
    GameSession.deck s' = rest ∧
    GameSession.hand s' = GameSession.hand s ++ [top] ∧
    GameSession.discardPile s' = GameSession.discardPile s.
Proof.
  intros Hs Hdeck.
  eexists _, _, (Summary.drawn s). split.
  { rewrite (Engine.drawCard_eq w session s Hs).
    unfold Summary.drawnCard, Summary.reshuffled. rewrite Hdeck. cbn.
    rewrite Hdeck. reflexivity. }
  split; [apply lookup_insert_eq |].
  unfold Summary.drawn, Summary.reshuffled. rewrite Hdeck. cbn. rewrite Hdeck.
  repeat split.
Qed.

Lemma drawCard_top_of_deck_witness :
  ∃ newSession w' s',
    GameEngine.drawCard 1%positive
      (Demo.world (Demo.session IN_PROGRESS 0 [] [Demo.cardX; Demo.cardY]
                                [Demo.neutral])
                  Demo.normalState)
    = Returns (newSession, Some Demo.cardX) w' ∧
    store w' !! newSession = Some (SessionObj s') ∧
    GameSession.deck s' = [Demo.cardY] ∧
    GameSession.hand s' = [] ++ [Demo.cardX] ∧
    GameSession.discardPile s' = [Demo.neutral].
Proof.
  apply (drawCard_top_of_deck
           (Demo.world (Demo.session IN_PROGRESS 0 [] [Demo.cardX; Demo.cardY]
                                     [Demo.neutral])
                       Demo.normalState)
           1%positive
           (Demo.session IN_PROGRESS 0 [] [Demo.cardX; Demo.cardY] [Demo.neutral])
           Demo.cardX [Demo.cardY]); reflexivity.
Defined.

(** X13.  [drawCard] is copy on write: it allocates the session it
    returns and writes nothing else, so the input session object, its state
    object and every other object are as they were.  The returned session
    differs from the input in its piles only: status, turn count, score,
    state reference and the remaining fields are the input's. *)
Theorem drawCard_frame (w : World) (session : loc) (s : GameSession.t) :
  store w !! session = Some (SessionObj s) →
  ∃ newSession drawnCard w' s',
    GameEngine.drawCard session w = Returns (newSession, drawnCard) w' ∧
    store w !! newSession = None ∧
    store w' = <[newSession := SessionObj s']> (store w) ∧
    (∀ l, l ≠ newSession → store w' !! l = store w !! l) ∧
    clock w' = clock w ∧ ticks w' = ticks w ∧
    GameSession.set_hand (GameSession.hand s)
      (GameSession.set_deck (GameSession.deck s)
         (GameSession.set_discardPile (GameSession.discardPile s) s')) = s.
Proof.
  intros Hs.
  eexists _, _, _, (Summary.drawn s).
  split; [apply (Engine.drawCard_eq w session s Hs) |]. cbn [store clock ticks].
  split; [apply fresh_unused |].
  split; [reflexivity |].
  split; [intros l Hl; by rewrite lookup_insert_ne |].
  split; [reflexivity |]. split; [reflexivity |].
  destruct s as [? ? ? ? hand deck discardPile ? ? ? ? ? ?].
  unfold Summary.drawn, Summary.reshuffled.
  destruct deck as [| top deck]; [destruct discardPile as [| top discardPile] |];
    reflexivity.
Qed.

Lemma drawCard_frame_witness :
  ∃ newSession drawnCard w' s',
    GameEngine.drawCard 1%positive
      (Demo.world (Demo.session VICTORY 7 [] [Demo.cardX] []) Demo.normalState)
    = Returns (newSession, drawnCard) w' ∧
    store (Demo.world (Demo.session VICTORY 7 [] [Demo.cardX] []) Demo.normalState)
      !! newSession = None ∧
    store w'
    = <[newSession := SessionObj s']>
        (store (Demo.world (Demo.session VICTORY 7 [] [Demo.cardX] [])
                           Demo.normalState)) ∧
    (∀ l, l ≠ newSession →
          store w' !! l
          = store (Demo.world (Demo.session VICTORY 7 [] [Demo.cardX] [])
                              Demo.normalState) !! l) ∧
    clock w' = (λ n, Z.of_nat n) ∧ ticks w' = 0%nat ∧
    GameSession.set_hand []
      (GameSession.set_deck [Demo.cardX]
         (GameSession.set_discardPile [] s'))
    = Demo.session VICTORY 7 [] [Demo.cardX] [].
Proof.
  apply (drawCard_frame
           (Demo.world (Demo.session VICTORY 7 [] [Demo.cardX] []) Demo.normalState)
           1%positive (Demo.session VICTORY 7 [] [Demo.cardX] [])).
  reflexivity.
Defined.

(** X14.  [drawCard] returns no card exactly when deck and discard pile
    are both empty.  When it returns a card, that card is the last card of
    the returned hand, the hand is one card longer, and the three piles
    together hold as many cards as before. *)
Theorem drawCard_null_iff_empty (w : World) (session : loc) (s : GameSession.t) :
  store w !! session = Some (SessionObj s) →
  ∃ newSession drawnCard w' s',
    GameEngine.drawCard session w = Returns (newSession, drawnCard) w' ∧
    store w' !! newSession = Some (SessionObj s') ∧
    (drawnCard = None ↔
       GameSession.deck s = [] ∧ GameSession.discardPile s = []) ∧
    (∀ card, drawnCard = Some card →
       GameSession.hand s' = GameSession.hand s ++ [card] ∧
       length (GameSession.hand s') = S (length (GameSession.hand s))) ∧
    length (GameSession.piles s') = length (GameSession.piles s).
Proof.
  intros Hs.
  eexists _, _, _, (Summary.drawn s).
  split; [apply (Engine.drawCard_eq w session s Hs) |].
  split; [apply lookup_insert_eq |].
  split; [| split].
  - unfold Summary.drawnCard, Summary.reshuffled.
    destruct (GameSession.deck s) as [| top rest] eqn:Hdeck; cbn.
    + destruct (GameSession.discardPile s) as [| top rest]; cbn.
      * done.
      * split; [discriminate | intros [_ H]; discriminate].
    + rewrite Hdeck. cbn. split; [discriminate | intros [H _]; discriminate].
  - intros card. unfold Summary.drawnCard, Summary.drawn, Summary.reshuffled.
    destruct (GameSession.deck s) as [| top rest] eqn:Hdeck; cbn.
    + destruct (GameSession.discardPile s) as [| top rest]; cbn;
        [discriminate |].
      intros [= ->]. rewrite length_app. cbn. split; [reflexivity | lia].
    + rewrite Hdeck. cbn. intros [= ->]. rewrite length_app. cbn.
      split; [reflexivity | lia].
  - apply Permutation_length, Piles.drawn_piles.
Qed.

Lemma drawCard_null_iff_empty_witness :
  ∃ newSession drawnCard w' s',
    GameEngine.drawCard 1%positive
      (Demo.world (Demo.session IN_PROGRESS 0 [Demo.neutral] [] [Demo.cardX])
                  Demo.normalState)
    = Returns (newSession, drawnCard) w' ∧
    store w' !! newSession = Some (SessionObj s') ∧
    (drawnCard = None ↔ ([] : list Card.t) = [] ∧ [Demo.cardX] = []) ∧
    (∀ card, drawnCard = Some card →
       GameSession.hand s' = [Demo.neutral] ++ [card] ∧
       length (GameSession.hand s') = 2%nat) ∧
    length (GameSession.piles s') = 2%nat.
Proof.
  apply (drawCard_null_iff_empty
           (Demo.world (Demo.session IN_PROGRESS 0 [Demo.neutral] [] [Demo.cardX])
                       Demo.normalState)
           1%positive
           (Demo.session IN_PROGRESS 0 [Demo.neutral] [] [Demo.cardX])).
  reflexivity.
Defined.

(** ** Draws in a row *)

Module Draws.
Import Summary.

Lemma drawn_n (n : nat) :
  ∀ s : GameSession.t,
    (n ≤ length (GameSession.deck s))%nat →
    GameSession.hand (Nat.iter n drawn s)
    = GameSession.hand s ++ take n (GameSession.deck s) ∧
    GameSession.deck (Nat.iter n drawn s) = drop n (GameSession.deck s) ∧
    GameSession.discardPile (Nat.iter n drawn s) = GameSession.discardPile s.
Proof.
  induction n as [| n IH]; intros s Hn.
  - cbn. rewrite app_nil_r. rewrite drop_0. done.
  - rewrite Nat.iter_succ_r.
    destruct (GameSession.deck s) as [| top rest] eqn:Hdeck; [cbn in Hn; lia |].
    assert (Hd : drawn s = GameSession.set_hand (GameSession.hand s ++ [top])
                             (GameSession.set_deck rest s)).
    { unfold drawn, reshuffled. rewrite Hdeck. cbn. by rewrite Hdeck. }
    destruct (IH (drawn s)) as (Hhand & Hdk & Hdisc).
    { rewrite Hd. cbn in *. lia. }
    rewrite Hhand, Hdk, Hdisc, Hd. cbn. rewrite <- app_assoc. done.
Qed.

(** The loop of [createNewGameSession]: every turn allocates a session and
    writes no object that was there before. *)
Lemma drawLoop_eq (n : nat) :
  ∀ (w : World) (l : loc) (s : GameSession.t),
    store w !! l = Some (SessionObj s) →
    ∃ l' w',
      App.drawLoop n l w = Returns l' w' ∧
      store w' !! l' = Some (SessionObj (Nat.iter n drawn s)) ∧
      (∀ k, is_Some (store w !! k) → store w' !! k = store w !! k) ∧
      clock w' = clock w ∧ ticks w' = ticks w.
Proof.
  induction n as [| n IH]; intros w l s Hs.
  - exists l, w. cbn. done.
  - cbn [App.drawLoop].
    run (Engine.drawCard_eq w l s Hs).
    edestruct (IH (mkWorld (<[fresh (dom (store w)) := SessionObj (drawn s)]> (store w))
                           (clock w) (ticks w))
                  (fresh (dom (store w))) (drawn s))
      as (l' & w' & Hloop & Hl' & Hkeep & Hclock & Hticks).
    { apply lookup_insert_eq. }
    exists l', w'. split; [exact Hloop |].
    split; [by rewrite Nat.iter_succ_r |].
    split; [| done].
    intros k Hk. rewrite Hkeep; cbn [store].
    + rewrite lookup_insert_ne; [done |].
      intros <-. rewrite fresh_unused in Hk. by destruct Hk.
    + destruct (decide (fresh (dom (store w)) = k)) as [<- | Hne].
      * rewrite lookup_insert_eq. eauto.
      * by rewrite lookup_insert_ne.
Qed.

End Draws.

(** X15.  The draw loop of [createNewGameSession], run [n] times on a
    session whose deck holds at least [n] cards, ends with a session whose
    hand is the old hand followed by the first [n] cards of the deck in
    deck order and whose deck is the rest; the session it started from is
    not modified. *)
Theorem drawLoop_takes_from_deck (n : nat) (w : World) (session : loc)
    (s : GameSession.t) :
  store w !! session = Some (SessionObj s) →
  (n ≤ length (GameSession.deck s))%nat →
  ∃ updatedSession w' s',
    App.drawLoop n session w = Returns updatedSession w' ∧
    store w' !! updatedSession = Some (SessionObj s') ∧
    GameSession.hand s' = GameSession.hand s ++ take n (GameSession.deck s) ∧
    GameSession.deck s' = drop n (GameSession.deck s) ∧
    GameSession.discardPile s' = GameSession.discardPile s ∧
    store w' !! session = Some (SessionObj s).
Proof.
  intros Hs Hn.
  destruct (Draws.drawLoop_eq n w session s Hs)
    as (l' & w' & Hloop & Hl' & Hkeep & _).
  destruct (Draws.drawn_n n s Hn) as (Hhand & Hdeck & Hdiscard).
  exists l', w', (Nat.iter n Summary.drawn s).
  split; [exact Hloop |]. split; [exact Hl' |].
  split; [exact Hhand |]. split; [exact Hdeck |]. split; [exact Hdiscard |].
  rewrite Hkeep; [exact Hs | eauto].
Qed.

Lemma drawLoop_takes_from_deck_witness :
  ∃ updatedSession w' s',
    App.drawLoop 2 1%positive
      (Demo.world (Demo.session IN_PROGRESS 0 [Demo.neutral]
                     [Demo.cardX; Demo.cardY; Demo.swing] [])
                  Demo.normalState)
    = Returns updatedSession w' ∧
    store w' !! updatedSession = Some (SessionObj s') ∧
    GameSession.hand s'
    = [Demo.neutral] ++ take 2 [Demo.cardX; Demo.cardY; Demo.swing] ∧
    GameSession.deck s' = drop 2 [Demo.cardX; Demo.cardY; Demo.swing] ∧
    GameSession.discardPile s' = [] ∧
    store w' !! 1%positive
    = Some (SessionObj (Demo.session IN_PROGRESS 0 [Demo.neutral]
                          [Demo.cardX; Demo.cardY; Demo.swing] [])).
Proof.
  apply (drawLoop_takes_from_deck 2
           (Demo.world (Demo.session IN_PROGRESS 0 [Demo.neutral]
                          [Demo.cardX; Demo.cardY; Demo.swing] [])
                       Demo.normalState)
           1%positive
           (Demo.session IN_PROGRESS 0 [Demo.neutral]
              [Demo.cardX; Demo.cardY; Demo.swing] [])).
  - reflexivity.
  - cbn. lia.
Defined.

(** ** Starting a game *)

Lemma initialState_allStable (clk : nat → Date) (t : nat) :
  Summary.allStable (Detail.initialState clk t).
Proof.
  intros b Hb. unfold Detail.initialState, HomeostaticState.values in Hb. cbn in Hb.
  unfold Summary.inNormalRange.
  apply elem_of_cons in Hb as [-> | Hb]; [cbn; repeat split; lra |].
  apply elem_of_cons in Hb as [-> | Hb]; [cbn; repeat split; lra |].
  apply list_elem_of_singleton in Hb as ->. cbn; repeat split; lra.
Qed.

(** X16.  [createNewGameSession] hands [setGameSession] the session object
    it built, not the one its five draws ended with: for every card table
    the session handed over has an empty hand, the whole filtered table
    (the cards of type 'ACAO') as its deck and an empty discard pile.  It
    is [IN_PROGRESS] at turn 0 with score 0, and its three biomarkers are
    non-critical and within their normal ranges. *)
Theorem createNewGameSession_hand_is_empty (initialCards : list Card.t)
    (difficulty : Difficulty) (system : string) (w : World) :
  ∃ newSession w' s st,
    App.createNewGameSession initialCards difficulty system w
    = Returns newSession w' ∧
    store w' !! newSession = Some (SessionObj s) ∧
    store w' !! GameSession.currentState s = Some (StateObj st) ∧
    GameSession.hand s = [] ∧
    GameSession.deck s = filter (λ card, Card.type card = ACTION) initialCards ∧
    GameSession.discardPile s = [] ∧
    GameSession.status s = IN_PROGRESS ∧
    GameSession.turnCount s = 0 ∧
    GameSession.score s = 0 ∧
    GameSession.difficulty s = difficulty ∧
    st = Detail.initialState (clock w) (ticks w) ∧
    Summary.allStable st.
Proof.
  set (st := Detail.initialState (clock w) (ticks w)).
  set (l1 := fresh (dom (store w))).
  set (l2 := fresh (dom (<[l1 := StateObj st]> (store w)))).
  set (s := GameSession.mk (pretty (clock w (ticks w))) "player-1" IN_PROGRESS l1
              [] (filter (λ card, Card.type card = ACTION) initialCards) [] None
              0 0 (clock w (S (S (S (S (ticks w))))))
              (clock w (S (S (S (S (S (ticks w))))))) difficulty).
  set (w3 := mkWorld (<[l2 := SessionObj s]> (<[l1 := StateObj st]> (store w)))
                     (clock w) (S (S (S (S (S (S (ticks w)))))))).
  assert (Hne : l2 ≠ l1).
  { intros E. pose proof (is_fresh (dom (<[l1 := StateObj st]> (store w)))) as Hf.
    fold l2 in Hf. rewrite E in Hf. apply Hf. rewrite dom_insert_L. set_solver. }
  destruct (Draws.drawLoop_eq 5 w3 l2 s) as (l' & w' & Hloop & _ & Hkeep & _).
  { apply lookup_insert_eq. }
  exists l2, w', s, st.
  split.
  { unfold App.createNewGameSession.
    unfold mbind, M_bind, mret, M_ret, newDate, alloc.
    cbn [store clock ticks].
    change (match App.drawLoop 5 l2 w3 with
            | Returns _ w2 => Returns l2 w2
            | Throws e w2 => Throws e w2
            end = Returns l2 w').
    rewrite Hloop. reflexivity. }
  split.
  { rewrite Hkeep; cbn [store w3]; rewrite lookup_insert_eq; eauto. }
  split.
  { rewrite Hkeep; cbn [store w3 GameSession.currentState s].
    - rewrite lookup_insert_ne by done. apply lookup_insert_eq.
    - rewrite lookup_insert_ne by done. rewrite lookup_insert_eq. eauto. }
  do 8 (split; [reflexivity |]). apply initialState_allStable.
Qed.

(** ** Score bounds *)

Lemma counts_at_most_three (st : HomeostaticState.t) :
  (Summary.criticalCount st ≤ 3)%nat ∧ (Summary.stableCount st ≤ 3)%nat.
Proof.
  unfold Summary.criticalCount, Summary.stableCount.
  split; (etransitivity; [apply length_filter | reflexivity]).
Qed.

Lemma allStable_stableCount (st : HomeostaticState.t) :
  Summary.allStable st → Summary.stableCount st = 3%nat.
Proof.
  intros H. unfold Summary.stableCount.
  rewrite Piles.filter_keeps_all; [reflexivity |].
  intros b Hb. by apply H.
Qed.

(** X17.  [getScore] is never negative; for a non-negative turn count it
    is at most 1300, a value reached at turn 0 with all three biomarkers
    stable and none critical; from turn 130 on it is 0 whatever the
    biomarkers; and on the same biomarkers one more turn never raises it
    and lowers it by at most 10. *)
Theorem getScore_bounds (w : World) (session : loc) (s : GameSession.t)
    (st : HomeostaticState.t) :
  store w !! session = Some (SessionObj s) →
  store w !! GameSession.currentState s = Some (StateObj st) →
  ∃ score,
    GameEngine.getScore session w = Returns score w ∧
    0 <= score ∧
    (0 <= GameSession.turnCount s → score <= 1300) ∧
    (GameSession.turnCount s = 0 → Summary.allStable st → score = 1300) ∧
    (130 <= GameSession.turnCount s → score = 0) ∧
    (∀ (w2 : World) (session2 : loc) (s2 : GameSession.t),
       store w2 !! session2 = Some (SessionObj s2) →
       store w2 !! GameSession.currentState s2 = Some (StateObj st) →
       GameSession.turnCount s2 = GameSession.turnCount s + 1 →
       ∃ score2, GameEngine.getScore session2 w2 = Returns score2 w2 ∧
                 score - 10 <= score2 <= score).
Proof.
  intros Hs Hst.
  destruct (counts_at_most_three st) as [Hc Hb].
  eexists. split; [apply (Engine.getScore_eq w session s st Hs Hst) |].
  split; [lia |]. split; [lia |]. split; [| split; [lia |]].
  - intros Hturn Hstable.
    rewrite Hturn, (Rule.allStable_criticalCount st Hstable),
      (allStable_stableCount st Hstable). reflexivity.
  - intros w2 session2 s2 Hs2 Hst2 Hturn.
    eexists. split; [apply (Engine.getScore_eq w2 session2 s2 st Hs2 Hst2) |].
    rewrite Hturn. lia.
Qed.

Lemma getScore_bounds_witness :
  ∃ score,
    GameEngine.getScore 1%positive
      (Demo.world (Demo.session IN_PROGRESS 0 [] [] []) Demo.normalState)
    = Returns score
        (Demo.world (Demo.session IN_PROGRESS 0 [] [] []) Demo.normalState) ∧
    0 <= score ∧
    (0 <= 0 → score <= 1300) ∧
    (0 = 0 → Summary.allStable Demo.normalState → score = 1300) ∧
    (130 <= 0 → score = 0) ∧
    (∀ (w2 : World) (session2 : loc) (s2 : GameSession.t),
       store w2 !! session2 = Some (SessionObj s2) →
       store w2 !! GameSession.currentState s2 = Some (StateObj Demo.normalState) →
       GameSession.turnCount s2 = 0 + 1 →
       ∃ score2, GameEngine.getScore session2 w2 = Returns score2 w2 ∧
                 score - 10 <= score2 <= score).
Proof.
  apply (getScore_bounds
           (Demo.world (Demo.session IN_PROGRESS 0 [] [] []) Demo.normalState)
           1%positive (Demo.session IN_PROGRESS 0 [] [] []) Demo.normalState);
    reflexivity.
Defined.

(** ** Drawing a card and playing it *)

Lemma drawn_currentState (s : GameSession.t) :
  GameSession.currentState (Summary.drawn s) = GameSession.currentState s ∧
  GameSession.turnCount (Summary.drawn s) = GameSession.turnCount s.
Proof.
  unfold Summary.drawn, Summary.reshuffled.
  destruct (GameSession.deck s) as [| top rest] eqn:Hdeck; cbn.
  - destruct (GameSession.discardPile s); done.
  - rewrite Hdeck. done.
Qed.

(** X18.  Drawing the top card of the deck and playing it at once, when
    no card of the hand carries its id, moves that card from the deck to
    the discard pile: the hand is the hand before the draw, the deck has
    lost its first card, the discard pile has gained it at the end, and the
    turn count is one higher. *)
Theorem draw_then_play (w : World) (session : loc) (s : GameSession.t)
    (st : HomeostaticState.t) (top : Card.t) (rest : list Card.t) :
  store w !! session = Some (SessionObj s) →
  store w !! GameSession.currentState s = Some (StateObj st) →
  GameSession.deck s = top :: rest →
  Summary.validCard top →
  Summary.copies (Card.id top) (GameSession.hand s) = 0%nat →
  ∃ drawnSession w1 playedSession history w2 s2,
    GameEngine.drawCard session w = Returns (drawnSession, Some top) w1 ∧
    GameEngine.processTurn drawnSession top w1
    = Returns (playedSession, history) w2 ∧
    store w2 !! playedSession = Some (SessionObj s2) ∧
    GameSession.hand s2 = GameSession.hand s ∧
    GameSession.deck s2 = rest ∧
    GameSession.discardPile s2 = GameSession.discardPile s ++ [top] ∧
    GameSession.turnCount s2 = GameSession.turnCount s + 1.
Proof.
  intros Hs Hst Hdeck Hvalid Hcopies.
  pose proof (Engine.drawCard_eq w session s Hs) as Hdraw.
  set (l1 := fresh (dom (store w))) in *.
  set (w1 := mkWorld (<[l1 := SessionObj (Summary.drawn s)]> (store w))
                     (clock w) (ticks w)) in *.
  assert (Hd : Summary.drawn s
               = GameSession.set_hand (GameSession.hand s ++ [top])
                   (GameSession.set_deck rest s)).
  { unfold Summary.drawn, Summary.reshuffled. rewrite Hdeck. cbn. by rewrite Hdeck. }
  assert (Hcard : Summary.drawnCard s = Some top).
  { unfold Summary.drawnCard, Summary.reshuffled. rewrite Hdeck. cbn.
    by rewrite Hdeck. }
  assert (Hne : l1 ≠ GameSession.currentState s).
  { intros E. pose proof (fresh_unused w) as Hf. fold l1 in Hf. congruence. }
  destruct (Rule.processTurn_returns w1 l1 (Summary.drawn s) st top)
    as (l2 & history & w2 & st' & Hplay & _ & Hl2 & _).
  { apply lookup_insert_eq. }
  { rewrite (proj1 (drawn_currentState s)). cbn [store w1].
    rewrite lookup_insert_ne by done. exact Hst. }
  { exact Hvalid. }
  exists l1, w1, l2, history, w2, (Summary.played top st' (Summary.drawn s)).
  split; [by rewrite Hdraw, Hcard |].
  split; [exact Hplay |]. split; [exact Hl2 |].
  rewrite Hd. cbn. repeat split.
  rewrite filter_app, filter_cons, filter_nil.
  destruct (decide (Card.id top ≠ Card.id top)); [done |].
  rewrite app_nil_r. apply Piles.filter_keeps_all. intros c Hin Hid.
  unfold Summary.copies in Hcopies. apply length_zero_iff_nil in Hcopies.
  assert (Hc : c ∈ filter (λ c, Card.id c = Card.id top) (GameSession.hand s))
    by (apply list_elem_of_filter; done).
  rewrite Hcopies in Hc. by apply elem_of_nil in Hc.
Qed.

Lemma draw_then_play_witness :
  ∃ drawnSession w1 playedSession history w2 s2,
    GameEngine.drawCard 1%positive
      (Demo.world (Demo.session IN_PROGRESS 2 [Demo.cardY] [Demo.cardX; Demo.swing] [])
                  Demo.normalState)
    = Returns (drawnSession, Some Demo.cardX) w1 ∧
    GameEngine.processTurn drawnSession Demo.cardX w1
    = Returns (playedSession, history) w2 ∧
    store w2 !! playedSession = Some (SessionObj s2) ∧
    GameSession.hand s2 = [Demo.cardY] ∧
    GameSession.deck s2 = [Demo.swing] ∧
    GameSession.discardPile s2 = [] ++ [Demo.cardX] ∧
    GameSession.turnCount s2 = 2 + 1.
Proof.
  apply (draw_then_play
           (Demo.world (Demo.session IN_PROGRESS 2 [Demo.cardY]
                          [Demo.cardX; Demo.swing] [])
                       Demo.normalState)
           1%positive
           (Demo.session IN_PROGRESS 2 [Demo.cardY] [Demo.cardX; Demo.swing] [])
           Demo.normalState Demo.cardX [Demo.swing]).
  - reflexivity.
  - reflexivity.
  - reflexivity.
  - constructor; [left; reflexivity | constructor].
  - reflexivity.
Defined.

(** ** Random events *)

Module Events.
Import Detail.

Lemma floor_range (random : Q) :
  (0 <= random)%Q → (random < 1)%Q →
  0 <= Qfloor (random * inject_Z 4) < 4.
Proof.
  intros Hlo Hhi.
  pose proof (Qfloor_le (random * inject_Z 4)) as Hfl.
  pose proof (Qlt_floor (random * inject_Z 4)) as Hfu.
  assert (H4 : (inject_Z 4 == 4)%Q) by reflexivity.
  split.
  - assert (H : 0 < Qfloor (random * inject_Z 4) + 1); [| lia].
    rewrite Zlt_Qlt. eapply Qle_lt_trans; [| exact Hfu].
    change (inject_Z 0) with 0%Q. rewrite H4. lra.
  - rewrite Zlt_Qlt. eapply Qle_lt_trans; [exact Hfl |]. rewrite H4.
    change (inject_Z 4) with 4%Q. lra.
Qed.

Lemma table_targets :
  Forall (λ event, GameEvent.effects event ≠ [] ∧
                   Forall validEventTarget (GameEvent.effects event))
         GameEngine.events.
Proof.
  unfold GameEngine.events, validEventTarget.
  repeat (apply Forall_cons_2; [split; [discriminate |] |]);
    try apply Forall_nil_2;
    repeat (apply Forall_cons_2;
            [first [left; reflexivity
                   | right; left; reflexivity
                   | right; right; reflexivity] |]);
    apply Forall_nil_2.
Qed.

(** Every value of [Math.random()] selects an event whose effects name
    systems. *)
Lemma selected (random : Q) :
  (0 <= random)%Q → (random < 1)%Q →
  ∃ event, GameEngine.generateRandomEvent random = Some event ∧
           Forall validEventTarget (GameEvent.effects event).
Proof.
  intros Hlo Hhi.
  pose proof (floor_range random Hlo Hhi) as Hrange.
  unfold GameEngine.generateRandomEvent.
  change (Qfloor (random * inject_Z (Z.of_nat (length GameEngine.events))))
    with (Qfloor (random * inject_Z 4)).
  destruct (Qfloor (random * inject_Z 4) <? 0) eqn:Hneg;
    [apply Z.ltb_lt in Hneg; lia |].
  destruct (GameEngine.events !! Z.to_nat (Qfloor (random * inject_Z 4)))
    as [event |] eqn:Hevent.
  - exists event. split; [reflexivity |].
    pose proof table_targets as Htable. rewrite Forall_forall in Htable.
    apply (Htable event). by eapply list_elem_of_lookup_2.
  - apply lookup_ge_None in Hevent.
    change (length GameEngine.events) with 4%nat in Hevent. lia.
Qed.

End Events.

(** X19.  For every value [Math.random()] can return (0 inclusive to 1
    exclusive) [generateRandomEvent] returns an entry of its table, the one
    at index [floor (random * 4)], so each quarter of the unit interval
    selects one event; the event has at least one effect and each of its
    effects names "glucose", "ph" or "temperature". *)
Theorem generateRandomEvent_in_table (random : Q) :
  (0 <= random)%Q → (random < 1)%Q →
  ∃ (i : nat) (event : GameEvent.t),
    (i < 4)%nat ∧
    (inject_Z (Z.of_nat i) <= random * 4)%Q ∧
    (random * 4 < inject_Z (Z.of_nat i) + 1)%Q ∧
    GameEngine.events !! i = Some event ∧
    GameEngine.generateRandomEvent random = Some event ∧
    GameEvent.effects event ≠ [] ∧
    Forall Detail.validEventTarget (GameEvent.effects event).
Proof.
  intros Hlo Hhi.
  pose proof (Events.floor_range random Hlo Hhi) as Hrange.
  pose proof (Qfloor_le (random * inject_Z 4)) as Hfl.
  pose proof (Qlt_floor (random * inject_Z 4)) as Hfu.
  set (z := Qfloor (random * inject_Z 4)) in *.
  assert (Hlookup : is_Some (GameEngine.events !! Z.to_nat z)).
  { apply lookup_lt_is_Some.
    change (length GameEngine.events) with 4%nat. lia. }
  destruct Hlookup as [event Hevent].
  exists (Z.to_nat z), event.
  assert (H4 : (inject_Z 4 == 4)%Q) by reflexivity.
  rewrite Z2Nat.id by lia.
  split; [lia |].
  rewrite inject_Z_plus in Hfu. change (inject_Z 1) with 1%Q in Hfu.
  rewrite H4 in Hfl, Hfu.
  split; [exact Hfl |].
  split; [exact Hfu |].
  split; [exact Hevent |].
  split.
  - unfold GameEngine.generateRandomEvent.
    change (Qfloor (random * inject_Z (Z.of_nat (length GameEngine.events))))
      with z.
    destruct (z <? 0) eqn:Hneg; [apply Z.ltb_lt in Hneg; lia | exact Hevent].
  - pose proof Events.table_targets as Htable.
    rewrite Forall_forall in Htable.
    apply (Htable event). by eapply list_elem_of_lookup_2.
Qed.

(** [Math.random()] = 0.6 falls in the third quarter: the infection
    event. *)
Lemma generateRandomEvent_in_table_witness :
  ∃ (i : nat) (event : GameEvent.t),
    (i < 4)%nat ∧
    (inject_Z (Z.of_nat i) <= (3 # 5) * 4)%Q ∧
    ((3 # 5) * 4 < inject_Z (Z.of_nat i) + 1)%Q ∧
    GameEngine.events !! i = Some event ∧
    GameEngine.generateRandomEvent (3 # 5) = Some event ∧
    GameEvent.effects event ≠ [] ∧
    Forall Detail.validEventTarget (GameEvent.effects event).
Proof.
  apply (generateRandomEvent_in_table (3 # 5)).
  - unfold Qle. simpl. lia.
  - unfold Qlt. simpl. lia.
Defined.

(** ** Ending a turn *)

Module EndTurn.
Import Summary Detail.

Lemma get_valid_event (effect : GameEvent.effect) (st : HomeostaticState.t) :
  validEventTarget effect →
  is_Some (HomeostaticState.get (GameEvent.system effect) st).
Proof.
  unfold HomeostaticState.get.
  intros [-> | [-> | ->]]; cbn; eauto.
Qed.

Lemma eventEffectsOn_valid (clk : nat → Date) (effects : list GameEvent.effect) :
  Forall validEventTarget effects →
  ∀ t st, is_Some (eventEffectsOn clk t effects st).
Proof.
  induction 1 as [| effect rest Hv _ IH]; intros t st; cbn.
  - eauto.
  - destruct (get_valid_event effect st Hv) as [b ->]. apply IH.
Qed.

Lemma applyEventEffect_exact (w : World) (l : loc) (s : GameSession.t)
    (st : HomeostaticState.t) (system : Biomarker.t) (effect : GameEvent.effect) :
  store w !! l = Some (SessionObj s) →
  store w !! GameSession.currentState s = Some (StateObj st) →
  HomeostaticState.get (GameEvent.system effect) st = Some system →
  App.applyEventEffect l effect w =
    Returns tt
      (mkWorld (<[GameSession.currentState s :=
                   StateObj (HomeostaticState.set (GameEvent.system effect)
                               (eventUpdated system (GameEvent.value effect)
                                  (clock w (ticks w)))
                               st)]> (store w))
               (clock w) (S (ticks w))).
Proof.
  intros Hs Hst Hget.
  unfold App.applyEventEffect, GameEngine.currentBiomarker,
    GameEngine.setCurrentBiomarker.
  unfold mbind, M_bind, mret, M_ret, newDate, putObject, getSession, getState.
  repeat (cbn [store clock ticks]; rewrite ?Hs, ?Hst, ?Hget).
  reflexivity.
Qed.

Lemma foldM_applyEventEffect (l : loc) (s : GameSession.t)
    (effects : list GameEvent.effect) :
  ∀ (w : World) (st st' : HomeostaticState.t),
    store w !! l = Some (SessionObj s) →
    store w !! GameSession.currentState s = Some (StateObj st) →
    eventEffectsOn (clock w) (ticks w) effects st = Some st' →
    foldM (λ _ effect, App.applyEventEffect l effect) effects tt w =
      Returns tt
        (mkWorld (<[GameSession.currentState s := StateObj st']> (store w))
                 (clock w) (ticks w + length effects)).
Proof.
  induction effects as [| effect rest IH]; intros w st st' Hs Hst Hrun.
  - cbn in Hrun. injection Hrun as <-. cbn.
    rewrite insert_id by done. rewrite Nat.add_0_r. by destruct w.
  - cbn in Hrun.
    destruct (HomeostaticState.get _ st) as [system |] eqn:Hget; [| discriminate].
    pose proof (session_state_apart _ _ _ _ _ Hs Hst) as Hne.
    cbn [foldM].
    run (applyEventEffect_exact w l s st system effect Hs Hst Hget).
    erewrite IH; cbn [store clock ticks].
    + rewrite insert_insert_eq. cbn [length]. do 2 f_equal. lia.
    + rewrite lookup_insert_ne by done. exact Hs.
    + apply lookup_insert_eq.
    + exact Hrun.
Qed.

(** What [handleEndTurn] does to the world when the random draw selects
    [event]. *)
Lemma handleEndTurn_exact (w : World) (gameSession : loc) (s : GameSession.t)
    (st st' : HomeostaticState.t) (random : Q) (event : GameEvent.t) :
  store w !! gameSession = Some (SessionObj s) →
  store w !! GameSession.currentState s = Some (StateObj st) →
  GameEngine.generateRandomEvent random = Some event →
  eventEffectsOn (clock w) (ticks w) (GameEvent.effects event) st = Some st' →
  App.handleEndTurn random (Some gameSession) w =
    Returns (Some (fresh (dom (store w))))
      (mkWorld (<[fresh (dom (store w)) := SessionObj (ended event st' s)]>
                  (<[GameSession.currentState s := StateObj st']> (store w)))
               (clock w) (ticks w + length (GameEvent.effects event))).
Proof.
  intros Hs Hst Hevent Hrun.
  set (new := fresh (dom (store w))).
  assert (Hnew : store w !! new = None) by apply fresh_unused.
  assert (Hne : new ≠ GameSession.currentState s) by (intros E; congruence).
  pose proof (foldM_applyEventEffect new s (GameEvent.effects event)
                (mkWorld (<[new := SessionObj s]> (store w)) (clock w) (ticks w))
                st st') as Hloop.
  cbn [store clock ticks] in Hloop.
  specialize (Hloop (lookup_insert_eq _ _ _)).
  rewrite lookup_insert_ne in Hloop by done. specialize (Hloop Hst Hrun).
  unfold App.handleEndTurn. cbv zeta. rewrite Hevent.
  run (spread_eq _ _ _ Hs). fold new. run Hloop.
  assign_at s.
  lazymatch goal with
  | |- (GameEngine.getScore new ≫= _) ?w2 = _ =>
      assert (Hscore : GameEngine.getScore new w2
                       = Returns (scoreOf (GameSession.turnCount s) st') w2)
  end.
  { lazymatch goal with
    | |- context [<[new := SessionObj ?s2]> _] =>
        apply (Engine.getScore_eq _ new s2 st'); cbn [store]
    end.
    - apply lookup_insert_eq.
    - cbn. rewrite !lookup_insert_ne by done. apply lookup_insert_eq. }
  run Hscore.
  assign_at_top. assign_at_top.
  unfold mret, M_ret. f_equal. f_equal.
  rewrite !insert_insert_eq.
  rewrite (insert_insert_ne _ (GameSession.currentState s) new) by done.
  rewrite insert_insert_eq. reflexivity.
Qed.

(** One key of the state through the loop of [handleEndTurn]. *)
Lemma eventEffectsOn_key (clk : nat → Date) (key : string)
    (effects : list GameEvent.effect) :
  ∀ (t : nat) (st st' : HomeostaticState.t) (b : Biomarker.t),
    eventEffectsOn clk t effects st = Some st' →
    HomeostaticState.get key st = Some b →
    ∃ b', HomeostaticState.get key st' = Some b' ∧
          (Biomarker.currentValue b'
           == Biomarker.currentValue b + totalEventDelta key effects)%Q ∧
          Biomarker.trend b' = Biomarker.trend b ∧
          Biomarker.normalRange b' = Biomarker.normalRange b ∧
          Biomarker.criticalRange b' = Biomarker.criticalRange b ∧
          (Forall (λ effect, GameEvent.system effect ≠ key) effects → b' = b) ∧
          (Exists (λ effect, GameEvent.system effect = key) effects →
           consistent b').
Proof.
  assert (Hupd : ∀ b v now, consistent (eventUpdated b v now)).
  { intros b v now. unfold consistent, eventUpdated, GameEngine.isCritical. cbn.
    destruct (Biomarker.normalRange b), (Biomarker.criticalRange b). reflexivity. }
  assert (Hkeep : ∀ effects t st st' b,
            eventEffectsOn clk t effects st = Some st' →
            HomeostaticState.get key st = Some b →
            consistent b →
            ∃ b', HomeostaticState.get key st' = Some b' ∧ consistent b').
  { induction effects0 as [| effect rest IH]; intros t st st' b Hrun Hget Hc.
    - cbn in Hrun. injection Hrun as <-. eauto.
    - cbn in Hrun.
      destruct (HomeostaticState.get (GameEvent.system effect) st)
        as [b0 |] eqn:Hget0; [| discriminate].
      destruct (String.eqb_spec (GameEvent.system effect) key) as [E | E].
      + eapply IH; [exact Hrun | | apply Hupd].
        rewrite <- E. apply get_set. rewrite Hget0. eauto.
      + eapply IH; [exact Hrun | | exact Hc].
        rewrite States.get_set_other by done. exact Hget. }
  induction effects as [| effect rest IH]; intros t st st' b Hrun Hget.
  - cbn in Hrun. injection Hrun as <-. exists b. cbn.
    repeat split; try done; [lra |]. intros H. by apply Exists_nil in H.
  - cbn in Hrun.
    destruct (HomeostaticState.get (GameEvent.system effect) st)
      as [b0 |] eqn:Hget0; [| discriminate].
    cbn [totalEventDelta foldr]. fold (totalEventDelta key rest).
    destruct (String.eqb_spec (GameEvent.system effect) key) as [E | E].
    + assert (b0 = b) as -> by (rewrite E in Hget0; congruence).
      assert (Hget1 : HomeostaticState.get key
                        (HomeostaticState.set (GameEvent.system effect)
                           (eventUpdated b (GameEvent.value effect) (clk t)) st)
                      = Some (eventUpdated b (GameEvent.value effect) (clk t))).
      { rewrite <- E. apply get_set. rewrite Hget0. eauto. }
      destruct (IH _ _ _ _ Hrun Hget1)
        as (b' & Hget' & Hval & Htrend & Hnorm & Hcrit & _ & _).
      destruct (Hkeep _ _ _ _ _ Hrun Hget1 (Hupd _ _ _)) as (b2 & Hget2 & Hc2).
      assert (b2 = b') as -> by congruence.
      exists b'. split; [exact Hget' |].
      split; [rewrite Hval; cbn; lra |].
      repeat split; try done.
      intros Hall. apply Forall_cons in Hall as [Hne _]. contradiction.
    + assert (Hget1 : HomeostaticState.get key
                        (HomeostaticState.set (GameEvent.system effect)
                           (eventUpdated b0 (GameEvent.value effect) (clk t)) st)
                      = Some b).
      { rewrite States.get_set_other by done. exact Hget. }
      destruct (IH _ _ _ _ Hrun Hget1)
        as (b' & Hget' & Hval & Htrend & Hnorm & Hcrit & Hsame & Hhit).
      exists b'. repeat split; try done.
      * intros Hall. apply Forall_cons in Hall as [_ Hall]. by apply Hsame.
      * intros Hex. apply Exists_cons in Hex as [Hex | Hex]; [contradiction |].
        by apply Hhit.
Qed.

End EndTurn.

(** X20.  For every session, whatever its status, and every value of
    [Math.random()], [handleEndTurn] raises nothing and hands on a new
    session with the selected event as [currentEvent] and the turn count
    one higher.  It leaves status, hand, deck and discard pile as they
    were, so an event that drives two biomarkers critical does not end the
    game by itself; and the score it stores is [getScore] of the biomarkers
    as the event left them with the turn count before the increment. *)
Theorem handleEndTurn_session (w : World) (gameSession : loc)
    (s : GameSession.t) (st : HomeostaticState.t) (random : Q) :
  store w !! gameSession = Some (SessionObj s) →
  store w !! GameSession.currentState s = Some (StateObj st) →
  (0 <= random)%Q → (random < 1)%Q →
  ∃ event newSession w' s' st',
    GameEngine.generateRandomEvent random = Some event ∧
    App.handleEndTurn random (Some gameSession) w = Returns (Some newSession) w' ∧
    store w' !! newSession = Some (SessionObj s') ∧
    store w' !! GameSession.currentState s' = Some (StateObj st') ∧
    Detail.eventEffectsOn (clock w) (ticks w) (GameEvent.effects event) st
    = Some st' ∧
    GameSession.currentEvent s' = Some event ∧
    GameSession.turnCount s' = GameSession.turnCount s + 1 ∧
    GameSession.status s' = GameSession.status s ∧
    GameSession.hand s' = GameSession.hand s ∧
    GameSession.deck s' = GameSession.deck s ∧
    GameSession.discardPile s' = GameSession.discardPile s ∧
    GameSession.score s' =
      Z.max 0 (1000 - 10 * GameSession.turnCount s
               - 50 * Z.of_nat (Summary.criticalCount st')
               + 100 * Z.of_nat (Summary.stableCount st')).
Proof.
  intros Hs Hst Hlo Hhi.
  destruct (Events.selected random Hlo Hhi) as (event & Hevent & Htargets).
  destruct (EndTurn.eventEffectsOn_valid (clock w) _ Htargets (ticks w) st)
    as [st' Hrun].
  pose proof (fresh_unused w) as Hnew.
  assert (Hne : fresh (dom (store w)) ≠ GameSession.currentState s)
    by (intros E; congruence).
  eexists event, _, _, (Detail.ended event st' s), st'.
  split; [exact Hevent |].
  split; [apply (EndTurn.handleEndTurn_exact w gameSession s st st' random event
                   Hs Hst Hevent Hrun) |].
  cbn [store].
  split; [apply lookup_insert_eq |].
  split; [cbn; rewrite lookup_insert_ne by done; apply lookup_insert_eq |].
  split; [exact Hrun |].
  do 6 (split; [reflexivity |]).
  cbn [Detail.ended GameSession.score]. unfold Detail.scoreOf. f_equal. lia.
Qed.

(** A session that is already lost, and [Math.random()] = 0. *)
Lemma handleEndTurn_session_witness :
  ∃ event newSession w' s' st',
    GameEngine.generateRandomEvent 0 = Some event ∧
    App.handleEndTurn 0 (Some 1%positive)
      (Demo.world (Demo.session DEFEAT 3 [Demo.cardX] [] []) Demo.normalState)
    = Returns (Some newSession) w' ∧
    store w' !! newSession = Some (SessionObj s') ∧
    store w' !! GameSession.currentState s' = Some (StateObj st') ∧
    Detail.eventEffectsOn (λ n, Z.of_nat n) 0 (GameEvent.effects event)
      Demo.normalState = Some st' ∧
    GameSession.currentEvent s' = Some event ∧
    GameSession.turnCount s' = 3 + 1 ∧
    GameSession.status s' = DEFEAT ∧
    GameSession.hand s' = [Demo.cardX] ∧
    GameSession.deck s' = [] ∧
    GameSession.discardPile s' = [] ∧
    GameSession.score s' =
      Z.max 0 (1000 - 10 * 3
               - 50 * Z.of_nat (Summary.criticalCount st')
               + 100 * Z.of_nat (Summary.stableCount st')).
Proof.
  apply (handleEndTurn_session
           (Demo.world (Demo.session DEFEAT 3 [Demo.cardX] [] []) Demo.normalState)
           1%positive (Demo.session DEFEAT 3 [Demo.cardX] [] [])
           Demo.normalState 0%Q).
  - reflexivity.
  - reflexivity.
  - unfold Qle. simpl. lia.
  - unfold Qlt. simpl. lia.
Defined.

(** X21.  [handleEndTurn] writes the event's effects into the state
    object the input session refers to, as [processTurn] does with a
    card's.  Each reading becomes the reading before plus the sum of the
    event's values for that system, ranges are kept, and a targeted
    biomarker gets its [isCritical] flag recomputed from the new reading;
    but, unlike [processTurn], the trend of every biomarker is left as it
    was.  A biomarker the event does not target is left exactly as it
    was. *)
Theorem handleEndTurn_biomarkers (w : World) (gameSession : loc)
    (s : GameSession.t) (st : HomeostaticState.t) (random : Q)
    (key : string) (b : Biomarker.t) :
  store w !! gameSession = Some (SessionObj s) →
  store w !! GameSession.currentState s = Some (StateObj st) →
  (0 <= random)%Q → (random < 1)%Q →
  HomeostaticState.get key st = Some b →
  ∃ event newSession w' st' b',
    GameEngine.generateRandomEvent random = Some event ∧
    App.handleEndTurn random (Some gameSession) w = Returns (Some newSession) w' ∧
    store w' !! gameSession = Some (SessionObj s) ∧
    store w' !! GameSession.currentState s = Some (StateObj st') ∧
    HomeostaticState.get key st' = Some b' ∧
    (Biomarker.currentValue b'
     == Biomarker.currentValue b
        + Detail.totalEventDelta key (GameEvent.effects event))%Q ∧
    Biomarker.trend b' = Biomarker.trend b ∧
    Biomarker.normalRange b' = Biomarker.normalRange b ∧
    Biomarker.criticalRange b' = Biomarker.criticalRange b ∧
    (Forall (λ effect, GameEvent.system effect ≠ key) (GameEvent.effects event) →
     b' = b) ∧
    (Exists (λ effect, GameEvent.system effect = key) (GameEvent.effects event) →
     Biomarker.isCritical b' = true ↔
       (Biomarker.currentValue b' < fst (Biomarker.criticalRange b'))%Q ∨
       (snd (Biomarker.criticalRange b') < Biomarker.currentValue b')%Q).
Proof.
  intros Hs Hst Hlo Hhi Hget.
  destruct (Events.selected random Hlo Hhi) as (event & Hevent & Htargets).
  destruct (EndTurn.eventEffectsOn_valid (clock w) _ Htargets (ticks w) st)
    as [st' Hrun].
  destruct (EndTurn.eventEffectsOn_key _ key _ _ _ _ b Hrun Hget)
    as (b' & Hget' & Hval & Htrend & Hnorm & Hcrit & Hsame & Hhit).
  pose proof (fresh_unused w) as Hnew.
  assert (Hne : fresh (dom (store w)) ≠ GameSession.currentState s)
    by (intros E; congruence).
  assert (Hne' : fresh (dom (store w)) ≠ gameSession) by (intros E; congruence).
  pose proof (session_state_apart w _ _ _ _ Hs Hst) as Hne''.
  eexists event, _, _, st', b'.
  split; [exact Hevent |].
  split; [apply (EndTurn.handleEndTurn_exact w gameSession s st st' random event
                   Hs Hst Hevent Hrun) |].
  cbn [store].
  split; [rewrite !lookup_insert_ne by done; exact Hs |].
  split; [rewrite lookup_insert_ne by done; apply lookup_insert_eq |].
  split; [exact Hget' |]. split; [exact Hval |]. split; [exact Htrend |].
  split; [exact Hnorm |]. split; [exact Hcrit |]. split; [exact Hsame |].
  intros Hex. specialize (Hhit Hex). unfold Detail.consistent in Hhit.
  rewrite Hhit. apply isCritical_iff.
Qed.

(** [Math.random()] = 0 selects the glucose spike (+25): glucose goes from
    90 to 115. *)
Lemma handleEndTurn_biomarkers_witness :
  ∃ event newSession w' st' b',
    GameEngine.generateRandomEvent 0 = Some event ∧
    App.handleEndTurn 0 (Some 1%positive)
      (Demo.world (Demo.session IN_PROGRESS 3 [] [] []) Demo.normalState)
    = Returns (Some newSession) w' ∧
    store w' !! 1%positive = Some (SessionObj (Demo.session IN_PROGRESS 3 [] [] [])) ∧
    store w' !! 2%positive = Some (StateObj st') ∧
    HomeostaticState.get "glucose" st' = Some b' ∧
    (Biomarker.currentValue b'
     == (90 # 1) + Detail.totalEventDelta "glucose" (GameEvent.effects event))%Q ∧
    Biomarker.trend b' = stable ∧
    Biomarker.normalRange b' = (70 # 1, 110 # 1) ∧
    Biomarker.criticalRange b' = (50 # 1, 140 # 1) ∧
    (Forall (λ effect, GameEvent.system effect ≠ "glucose")
            (GameEvent.effects event) →
     b' = Demo.glucose (90 # 1) false) ∧
    (Exists (λ effect, GameEvent.system effect = "glucose")
            (GameEvent.effects event) →
     Biomarker.isCritical b' = true ↔
       (Biomarker.currentValue b' < fst (Biomarker.criticalRange b'))%Q ∨
       (snd (Biomarker.criticalRange b') < Biomarker.currentValue b')%Q).
Proof.
  apply (handleEndTurn_biomarkers
           (Demo.world (Demo.session IN_PROGRESS 3 [] [] []) Demo.normalState)
           1%positive (Demo.session IN_PROGRESS 3 [] [] [])
           Demo.normalState 0%Q "glucose" (Demo.glucose (90 # 1) false)).
  - reflexivity.
  - reflexivity.
  - unfold Qle. simpl. lia.
  - unfold Qlt. simpl. lia.
  - reflexivity.
Defined.

(** ** The guards of the handlers *)

(** X22.  [handlePlayCard] and [handleDrawCard] act on a session in
    progress only.  On a session with any other status they return before
    calling the engine: the world is as it was and no session is handed to
    [setGameSession].  On a session in progress they hand on the session
    [processTurn], respectively [drawCard], returns. *)
Theorem handlers_guard_status (w : World) (gameSession : loc)
    (s : GameSession.t) (card : Card.t) :
  store w !! gameSession = Some (SessionObj s) →
  (GameSession.status s ≠ IN_PROGRESS →
   App.handlePlayCard card (Some gameSession) w = Returns None w ∧
   App.handleDrawCard (Some gameSession) w = Returns None w) ∧
  (GameSession.status s = IN_PROGRESS →
   (∀ newSession history w',
      GameEngine.processTurn gameSession card w
      = Returns (newSession, history) w' →
      App.handlePlayCard card (Some gameSession) w
      = Returns (Some newSession) w') ∧
   (∀ newSession drawnCard w',
      GameEngine.drawCard gameSession w = Returns (newSession, drawnCard) w' →
      App.handleDrawCard (Some gameSession) w = Returns (Some newSession) w')).
Proof.
  intros Hs. split.
  - intros Hstatus. unfold App.handlePlayCard, App.handleDrawCard.
    rewrite !(bind_returns _ _ _ _ _ (getSession_eq _ _ _ Hs)).
    destruct (decide (GameSession.status s ≠ IN_PROGRESS)); [done | contradiction].
  - intros Hstatus. unfold App.handlePlayCard, App.handleDrawCard.
    rewrite !(bind_returns _ _ _ _ _ (getSession_eq _ _ _ Hs)).
    destruct (decide (GameSession.status s ≠ IN_PROGRESS)); [contradiction |].
    split.
    + intros newSession history w' Hcall. by rewrite (bind_returns _ _ _ _ _ Hcall).
    + intros newSession drawnCard w' Hcall. by rewrite (bind_returns _ _ _ _ _ Hcall).
Qed.

(** A session that has ended in [VICTORY]. *)
Lemma handlers_guard_status_witness :
  App.handlePlayCard Demo.cardX (Some 1%positive)
    (Demo.world (Demo.session VICTORY 7 [Demo.cardX] [Demo.cardY] [])
                Demo.normalState)
  = Returns None
      (Demo.world (Demo.session VICTORY 7 [Demo.cardX] [Demo.cardY] [])
                  Demo.normalState) ∧
  App.handleDrawCard (Some 1%positive)
    (Demo.world (Demo.session VICTORY 7 [Demo.cardX] [Demo.cardY] [])
                Demo.normalState)
  = Returns None
      (Demo.world (Demo.session VICTORY 7 [Demo.cardX] [Demo.cardY] [])
                  Demo.normalState).
Proof.
  apply (handlers_guard_status
           (Demo.world (Demo.session VICTORY 7 [Demo.cardX] [Demo.cardY] [])
                       Demo.normalState)
           1%positive (Demo.session VICTORY 7 [Demo.cardX] [Demo.cardY] [])
           Demo.cardX).
  - reflexivity.
  - discriminate.
Defined.
